(** * azure-cost-exporter: the cost-record-to-metric mapping engine

    A shallow embedding of [app/exporter.py] (class [MetricExporter]) and
    the properties of its specification.

    Python objects are modelled as follows.
    - A cost row is a Python list of JSON scalars: [list value].
    - Dictionaries with string keys ([azure_account], keyword arguments,
      [group_key_values]) are [gmap string string]; the key set of a gauge
      is a [gset string].
    - Costs are Python floats.  The program only ever computes [0 + c],
      [c < t] and [c > 0] on them, all of which are exact on finite IEEE
      doubles, so they are modelled by exact rationals [Q].
    - Exceptions and the mutable gauges are threaded through a small
      state-and-error monad [M]; everything the program does to the outside
      world is also recorded, in order, in a [trace] of events. *)

From Stdlib Require Import ZArith QArith String List Lia.
From stdpp Require Import gmap strings list fin_maps.

Open Scope string_scope.
Set Warnings "-clear-no-such-hyp".

(** ** Python values and exceptions *)

Module Py.

(** The JSON scalars a row of the billing response can hold. *)
Inductive value :=
| VInt (z : Z)
| VFloat (q : Q)
| VStr (s : string)
| VNone.

Inductive exn :=
| IndexError
| KeyError (key : string)
| ValueError
| TypeError
| OverflowError
| OtherError (name : string).

(** The outcome of evaluating a Python expression or statement. *)
Inductive res (A : Type) :=
| Return (a : A)
| Raise (e : exn).
Arguments Return {A} a.
Arguments Raise {A} e.

(** [l[i]] for a non-negative index. *)
Definition index {A} (l : list A) (i : nat) : res A :=
  match l !! i with
  | Some v => Return v
  | None => Raise IndexError
  end.

(** [d[k]] on a dictionary. *)
Definition getitem {A} (d : gmap string A) (k : string) : res A :=
  match d !! k with
  | Some v => Return v
  | None => Raise (KeyError k)
  end.

(** [a < b] on floats. *)
Definition lt (a b : Q) : bool := negb (Qle_bool b a).

(** [v != n] for an integer [n]: numbers compare by value, anything else
    is different from an integer. *)
Definition ne_int (v : value) (n : Z) : bool :=
  match v with
  | VInt z => negb (z =? n)%Z
  | VFloat q => negb (Qeq_bool q (inject_Z n))
  | VStr _ | VNone => true
  end.

(** Building the keyword dictionary of a call [f( **a, **b )]: a key given
    twice is a [TypeError]. *)
Definition kwargs (a b : gmap string string) : res (gmap string string) :=
  if bool_decide (a ##ₘ b) then Return (a ∪ b) else Raise TypeError.

End Py.
Export Py.

(** ** Dates ([datetime] and [dateutil.relativedelta]) *)

Module DateTime.

Record datetime := {
  year : Z; month : Z; day : Z;
  hour : Z; minute : Z; second : Z; microsecond : Z;
  tz_utc : bool  (* [tzinfo=timezone.utc]; [false] is a naive datetime *)
}.

Definition is_leap (y : Z) : bool :=
  ((y mod 4 =? 0) && (negb (y mod 100 =? 0) || (y mod 400 =? 0)))%Z.

Definition days_in_month (y m : Z) : Z :=
  if (m =? 2)%Z then (if is_leap y then 29 else 28)
  else if ((m =? 4) || (m =? 6) || (m =? 9) || (m =? 11))%Z then 30
  else 31.

(** [d - relativedelta(days=1)]: the previous calendar day, the time of day
    and the time zone kept; before 0001-01-01 it is an [OverflowError]. *)
Definition minus_one_day (d : datetime) : res datetime :=
  let mk y m dd :=
    {| year := y; month := m; day := dd;
       hour := hour d; minute := minute d; second := second d;
       microsecond := microsecond d; tz_utc := tz_utc d |} in
  if (1 <? day d)%Z then Return (mk (year d) (month d) (day d - 1)%Z)
  else if (1 <? month d)%Z then
    Return (mk (year d) (month d - 1)%Z (days_in_month (year d) (month d - 1)))
  else if (1 <? year d)%Z then Return (mk (year d - 1)%Z 12%Z 31%Z)
  else Raise OverflowError.

(** [datetime(y, m, d, tzinfo=timezone.utc)]: midnight UTC of a date. *)
Definition utc_midnight (y m d : Z) : datetime :=
  {| year := y; month := m; day := d;
     hour := 0; minute := 0; second := 0; microsecond := 0; tz_utc := true |}.

(** [int(d.strftime("%Y%m%d"))]. *)
Definition yyyymmdd (d : datetime) : Z :=
  (year d * 10000 + month d * 100 + day d)%Z.

(** The proleptic Gregorian ordinal of a date (day 1 is 0001-01-01), as
    [date.toordinal] computes it; used to validate [minus_one_day]. *)
Definition days_before_year (y : Z) : Z :=
  let p := (y - 1)%Z in (p * 365 + p / 4 - p / 100 + p / 400)%Z.

Fixpoint days_before_month_aux (y : Z) (n : nat) : Z :=
  match n with
  | O => 0
  | S k => (days_before_month_aux y k + days_in_month y (Z.of_nat (S k)))%Z
  end.

Definition days_before_month (y m : Z) : Z :=
  days_before_month_aux y (Z.to_nat (m - 1)).

Definition toordinal (d : datetime) : Z :=
  (days_before_year (year d) + days_before_month (year d) (month d) + day d)%Z.

Definition valid_date (d : datetime) : Prop :=
  (1 <= year d /\ 1 <= month d <= 12 /\ 1 <= day d <= days_in_month (year d) (month d))%Z.

End DateTime.
Export DateTime.

(** ** Configuration of the exporter *)

(** One entry of [group_by["groups"]]. *)
Record Group := {
  group_type : string;
  group_name : string;
  label_name : string
}.

(** [group_by["merge_minor_cost"]]. *)
Record MergeMinorCost := {
  merge_enabled : bool;
  threshold : Q;
  tag_value : string
}.

Record GroupBy := {
  enabled : bool;
  groups : list Group;
  merge_minor_cost : MergeMinorCost
}.

(** The immutable attributes of a [MetricExporter] object.  An account
    target is the dictionary of its labels, [TenantId] and [Subscription]
    among them. *)
Record MetricExporter := {
  polling_interval_seconds : Z;
  metric_name : string;
  metric_name_usd : string;
  group_by : GroupBy;
  targets : list (gmap string string);
  secrets : gmap string (gmap string string)
}.

(** ** The billing query *)

Record QueryTimePeriod := {
  from_property : datetime;
  to : datetime
}.

Record QueryDefinition := {
  query_type : string;
  granularity : string;
  aggregation : list (string * (string * string));
  grouping : list (string * string);
  timeframe : string;
  time_period : QueryTimePeriod
}.

(** What [init_azure_client] builds: the credential of a tenant. *)
Record AzureClient := {
  tenant_id : string;
  client_id : string;
  client_secret : string
}.

(** What [azure_client.query.usage(scope, query)] does: it answers with a
    result whose dictionary may hold ["rows"], fails with an
    [HttpResponseError] carrying a reason, or raises something else. *)
Inductive usage_outcome :=
| UsageResult (rows : option (list (list value)))
| HttpResponseError (reason : string)
| UsageRaises (e : exn).

(** ** The metric registries *)

Inductive gauge_id := Native | Usd.

(** Modelled from the spec: the Metric Registry ([prometheus_client.Gauge])
    is an external collaborator.  It is a mutable map from label sets to
    values with a key set fixed at construction; it supports clear-all and
    set-by-labels, and supplying a different key set is an error. *)
Record Gauge := {
  labelnames : gset string;
  samples : gmap (gmap string string) Q
}.

Definition Gauge_clear (g : Gauge) : Gauge :=
  {| labelnames := labelnames g; samples := ∅ |}.

Definition Gauge_labels (g : Gauge) (kw : gmap string string) : res (gmap string string) :=
  if bool_decide (dom kw = labelnames g) then Return kw else Raise ValueError.

Definition Gauge_set (g : Gauge) (child : gmap string string) (v : Q) : Gauge :=
  {| labelnames := labelnames g; samples := <[child := v]> (samples g) |}.

(** ** Events, world and state *)

Inductive event :=
| EClear (g : gauge_id)
| ESet (g : gauge_id) (labels : gmap string string) (v : Q)
| EPrint (tenant : string)
| ELogError (reason : string)
| EQuery (client : AzureClient) (scope : string) (query : QueryDefinition)
| ESleep (seconds : Z).

(** What the program reads from outside, as functions of the history so
    far, and the Python built-ins that are left abstract. *)
Record world := {
  (* [datetime.today()]: the naive local date and time of the host *)
  today : list event -> datetime;
  (* the date and time in UTC at the same instant; the program never reads it *)
  utcnow : list event -> datetime;
  usage : list event -> AzureClient -> string -> QueryDefinition -> usage_outcome;
  (* [float(s)] on a string; [None] is a [ValueError] *)
  float_of_str : string -> option Q;
  (* [str(v)] on a number *)
  str_of_number : value -> string
}.

Record state := {
  azure_daily_cost : Gauge;
  azure_daily_cost_usd : Gauge;
  trace : list event
}.

Definition get_gauge (g : gauge_id) (st : state) : Gauge :=
  match g with
  | Native => azure_daily_cost st
  | Usd => azure_daily_cost_usd st
  end.

Definition put_gauge (g : gauge_id) (x : Gauge) (st : state) : state :=
  match g with
  | Native => {| azure_daily_cost := x; azure_daily_cost_usd := azure_daily_cost_usd st;
                 trace := trace st |}
  | Usd => {| azure_daily_cost := azure_daily_cost st; azure_daily_cost_usd := x;
              trace := trace st |}
  end.

Definition emit (e : event) (st : state) : state :=
  {| azure_daily_cost := azure_daily_cost st;
     azure_daily_cost_usd := azure_daily_cost_usd st;
     trace := trace st ++ [e] |}.

(** ** The state-and-error monad *)

Definition M (A : Type) : Type := state -> res A * state.

Definition ret {A} (a : A) : M A := fun st => (Return a, st).
Definition raise {A} (e : exn) : M A := fun st => (Raise e, st).
Definition bind {A B} (c : M A) (k : A -> M B) : M B :=
  fun st =>
    match c st with
    | (Return a, st') => k a st'
    | (Raise e, st') => (Raise e, st')
    end.
Definition lift {A} (r : res A) : M A := fun st => (r, st).
Definition modify (f : state -> state) : M unit := fun st => (Return tt, f st).
Definition get_trace : M (list event) := fun st => (Return (trace st), st).

Notation "x <~ c ;; k" := (bind c (fun x => k))
  (at level 100, c at next level, right associativity).
Notation "c ;;; k" := (bind c (fun _ => k))
  (at level 100, right associativity).

(** [gauge.clear()]. *)
Definition clear (g : gauge_id) : M unit :=
  modify (fun st => emit (EClear g) (put_gauge g (Gauge_clear (get_gauge g st)) st)).

(** [gauge.labels( **kw ).set(v)]. *)
Definition labels_set (g : gauge_id) (kw : gmap string string) (v : Q) : M unit :=
  fun st =>
    match Gauge_labels (get_gauge g st) kw with
    | Raise e => (Raise e, st)
    | Return child =>
        (Return tt, emit (ESet g child v) (put_gauge g (Gauge_set (get_gauge g st) child v) st))
    end.

(** ** The exporter *)

Section Exporter.

Variable W : world.
Variable self : MetricExporter.

(** [float(v)]. *)
Definition py_float (v : value) : res Q :=
  match v with
  | VInt z => Return (inject_Z z)
  | VFloat q => Return q
  | VStr s =>
      match float_of_str W s with
      | Some q => Return q
      | None => Raise ValueError
      end
  | VNone => Raise TypeError
  end.

(** [str(v)], which the gauge applies to every label value. *)
Definition py_str (v : value) : string :=
  match v with
  | VStr s => s
  | VNone => "None"
  | VInt _ | VFloat _ => str_of_number W v
  end.

(** [__init__], lines 26-32: the label names of both gauges. *)
Definition init_labels : res (gset string) :=
  match targets self with
  | [] => Raise IndexError
  | t0 :: _ =>
      let l := dom t0 ∪ {["ChargeType"]} ∪ {["Currency"]} in
      Return (if enabled (group_by self)
              then l ∪ list_to_set (label_name <$> groups (group_by self))
              else l)
  end.

(** [__init__], lines 33-34: the two gauges, empty. *)
Definition init : res state :=
  match init_labels with
  | Raise e => Raise e
  | Return l =>
      Return {| azure_daily_cost := {| labelnames := l; samples := ∅ |};
                azure_daily_cost_usd := {| labelnames := l; samples := ∅ |};
                trace := [] |}
  end.

(** [init_azure_client]. *)
Definition init_azure_client (tenant : string) : res AzureClient :=
  match getitem (secrets self) tenant with
  | Raise e => Raise e
  | Return sec =>
      match getitem sec "client_id" with
      | Raise e => Raise e
      | Return cid =>
          match getitem sec "client_secret" with
          | Raise e => Raise e
          | Return cs =>
              Return {| tenant_id := tenant; client_id := cid; client_secret := cs |}
          end
      end
  end.

(** The [QueryDefinition] built by [query_azure_cost_explorer], lines 59-79. *)
Definition query_definition (gb : GroupBy) (start_date end_date : datetime) : QueryDefinition :=
  {| query_type := "ActualCost";
     granularity := "Daily";
     aggregation := [("totalCost", ("Cost", "Sum")); ("totalCostUSD", ("CostUSD", "Sum"))];
     grouping := if enabled gb
                 then (fun g => (group_type g, group_name g)) <$> groups gb
                 else [];
     timeframe := "Custom";
     time_period :=
       {| from_property := utc_midnight (year start_date) (month start_date) (day start_date);
          to := utc_midnight (year end_date) (month end_date) (day end_date) |} |}.

(** [query_azure_cost_explorer]: the call is recorded, the world answers. *)
Definition query_azure_cost_explorer (azure_client : AzureClient) (subscription : string)
    (gb : GroupBy) (start_date end_date : datetime) : M usage_outcome :=
  let scope := "/subscriptions/" ++ subscription in
  let query := query_definition gb start_date end_date in
  h <~ get_trace ;;
  modify (emit (EQuery azure_client scope query)) ;;;
  ret (usage W h azure_client scope query).

(** Lines 93-96: the group labels read from the row. *)
Fixpoint row_group_key_values (gs : list Group) (i : nat) (result : list value)
    (acc : gmap string string) : res (gmap string string) :=
  match gs with
  | [] => Return acc
  | g :: gs' =>
      match index result (i + 3) with
      | Raise e => Raise e
      | Return value =>
          row_group_key_values gs' (S i) result (<[label_name g := py_str value]> acc)
      end
  end.

(** Lines 106-110: the group labels of the merged observation. *)
Fixpoint merged_group_key_values (gs : list Group) (tag : string)
    (acc : gmap string string) : gmap string string :=
  match gs with
  | [] => acc
  | g :: gs' => merged_group_key_values gs' tag (<[label_name g := tag]> acc)
  end.

(** The keyword arguments of lines 88-89 and 102-103:
    [( **azure_account, **group_key_values, ChargeType="ActualCost", Currency=result[3] )]. *)
Definition row_kwargs (azure_account group_key_values : gmap string string)
    (result : list value) : res (gmap string string) :=
  match kwargs azure_account group_key_values with
  | Raise e => Raise e
  | Return kw =>
      match index result 3 with
      | Raise e => Raise e
      | Return cur =>
          kwargs kw (<["ChargeType" := "ActualCost"]> {["Currency" := py_str cur]})
      end
  end.

(** The keyword arguments of lines 111 and 114:
    [( **azure_account, **group_key_values, ChargeType="ActualCost" )]. *)
Definition merged_kwargs (azure_account group_key_values : gmap string string)
    : res (gmap string string) :=
  match kwargs azure_account group_key_values with
  | Raise e => Raise e
  | Return kw => kwargs kw {["ChargeType" := "ActualCost"]}
  end.

(** Lines 98-103: the row is either added to the local accumulators or
    written to the gauges.  The result is the pair of locals
    [(merged_minor_cost, merged_minor_cost_usd)], which line 91-92 have
    just set to [0]. *)
Definition merge_or_set (azure_account group_key_values : gmap string string)
    (result : list value) (cost costUsd : Q) : M (Q * Q) :=
  let merged_minor_cost := 0%Q in
  let merged_minor_cost_usd := 0%Q in
  let mmc := merge_minor_cost (group_by self) in
  if merge_enabled mmc && lt cost (threshold mmc)
  then ret ((merged_minor_cost + cost)%Q, (merged_minor_cost_usd + costUsd)%Q)
  else
    kw <~ lift (row_kwargs azure_account group_key_values result) ;;
    labels_set Native kw cost ;;;
    kw' <~ lift (row_kwargs azure_account group_key_values result) ;;
    labels_set Usd kw' costUsd ;;;
    ret (merged_minor_cost, merged_minor_cost_usd).

(** Lines 105-116: the merged observation. *)
Definition set_merged (azure_account : gmap string string)
    (merged_minor_cost merged_minor_cost_usd : Q) : M unit :=
  if lt 0 merged_minor_cost
  then
    let group_key_values :=
      merged_group_key_values (groups (group_by self))
        (tag_value (merge_minor_cost (group_by self))) ∅ in
    kw <~ lift (merged_kwargs azure_account group_key_values) ;;
    labels_set Native kw merged_minor_cost ;;;
    kw' <~ lift (merged_kwargs azure_account group_key_values) ;;
    labels_set Usd kw' merged_minor_cost_usd
  else ret tt.

(** [expose_metrics], called once for each accepted row. *)
Definition expose_metrics (azure_account : gmap string string) (result : list value) : M unit :=
  r0 <~ lift (index result 0) ;;
  cost <~ lift (py_float r0) ;;
  r1 <~ lift (index result 1) ;;
  costUsd <~ lift (py_float r1) ;;
  if negb (enabled (group_by self))
  then
    kw <~ lift (row_kwargs azure_account ∅ result) ;;
    labels_set Native kw cost ;;;
    kw' <~ lift (row_kwargs azure_account ∅ result) ;;
    labels_set Usd kw' costUsd
  else
    group_key_values <~ lift (row_group_key_values (groups (group_by self)) 0 result ∅) ;;
    merged <~ merge_or_set azure_account group_key_values result cost costUsd ;;
    set_merged azure_account (fst merged) (snd merged).

(** [fetch], lines 133-140: one row of the response.  A row of another day
    than the start of the window is passed over. *)
Definition fetch_row (azure_account : gmap string string) (start_date : datetime)
    (result : list value) : M unit :=
  d <~ lift (index result 2) ;;
  if ne_int d (yyyymmdd start_date)
  then ret tt
  else expose_metrics azure_account result.

Fixpoint fetch_rows (azure_account : gmap string string) (start_date : datetime)
    (rows : list (list value)) : M unit :=
  match rows with
  | [] => ret tt
  | result :: rows' =>
      fetch_row azure_account start_date result ;;;
      fetch_rows azure_account start_date rows'
  end.

(** [fetch], lines 121-140: the body of the loop over the targets, after
    the tenant has been printed. *)
Definition fetch_tenant (azure_account : gmap string string) (tenant : string) : M unit :=
  azure_client <~ lift (init_azure_client tenant) ;;
  h <~ get_trace ;;
  let end_date := today W h in
  start_date <~ lift (minus_one_day end_date) ;;
  subscription <~ lift (getitem azure_account "Subscription") ;;
  cost_response <~
    query_azure_cost_explorer azure_client subscription (group_by self) start_date end_date ;;
  match cost_response with
  | HttpResponseError reason => modify (emit (ELogError reason))
  | UsageRaises e => raise e
  | UsageResult None => raise (KeyError "rows")
  | UsageResult (Some rows) => fetch_rows azure_account start_date rows
  end.

(** [fetch], lines 120-140: the body of the loop over the targets. *)
Definition fetch_account (azure_account : gmap string string) : M unit :=
  tenant <~ lift (getitem azure_account "TenantId") ;;
  modify (emit (EPrint tenant)) ;;;
  fetch_tenant azure_account tenant.

Fixpoint fetch_targets (accounts : list (gmap string string)) : M unit :=
  match accounts with
  | [] => ret tt
  | azure_account :: accounts' => fetch_account azure_account ;;; fetch_targets accounts'
  end.

Definition fetch : M unit := fetch_targets (targets self).

(** [time.sleep(s)]; a negative length is a [ValueError]. *)
Definition sleep (s : Z) : M unit :=
  if (s <? 0)%Z then raise ValueError else modify (emit (ESleep s)).

(** One iteration of the loop of [run_metrics_loop]. *)
Definition tick : M unit :=
  clear Native ;;;
  clear Usd ;;;
  fetch ;;;
  sleep (polling_interval_seconds self).

(** [run_metrics_loop] never returns; its first [n] iterations. *)
Fixpoint run_metrics_loop (n : nat) : M unit :=
  match n with
  | O => ret tt
  | S n' => tick ;;; run_metrics_loop n'
  end.

End Exporter.

(** ** Observations on traces *)

(** The observations written to gauge [g], in order. *)
Fixpoint observations (g : gauge_id) (t : list event) : list (gmap string string * Q) :=
  match t with
  | [] => []
  | ESet g' l v :: t' =>
      match g, g' with
      | Native, Native | Usd, Usd => (l, v) :: observations g t'
      | _, _ => observations g t'
      end
  | _ :: t' => observations g t'
  end.

(** The queries sent to the billing API, in order. *)
Fixpoint queries (t : list event) : list QueryDefinition :=
  match t with
  | [] => []
  | EQuery _ _ q :: t' => q :: queries t'
  | _ :: t' => queries t'
  end.

(** The tenants whose processing was started, in order. *)
Fixpoint started (t : list event) : list string :=
  match t with
  | [] => []
  | EPrint tenant :: t' => tenant :: started t'
  | _ :: t' => started t'
  end.

(** ** Concrete configurations and responses *)

Module Examples.

Definition account : gmap string string :=
  <["TenantId" := "tenant-1"]> (<["Subscription" := "sub-1"]> ∅).

Definition account2 : gmap string string :=
  <["TenantId" := "tenant-2"]> (<["Subscription" := "sub-2"]> ∅).

Definition secret : gmap string string :=
  <["client_id" := "id"]> (<["client_secret" := "secret"]> ∅).

Definition service_name : Group :=
  {| group_type := "Dimension"; group_name := "ServiceName"; label_name := "ServiceName" |}.

Definition no_merge : MergeMinorCost :=
  {| merge_enabled := false; threshold := 4; tag_value := "other" |}.

Definition merge_below_4 : MergeMinorCost :=
  {| merge_enabled := true; threshold := 4; tag_value := "other" |}.

Definition exporter (gb : GroupBy) (accounts : list (gmap string string)) : MetricExporter :=
  {| polling_interval_seconds := 3600;
     metric_name := "azure_daily_cost";
     metric_name_usd := "azure_daily_cost_usd";
     group_by := gb;
     targets := accounts;
     secrets := <["tenant-1" := secret]> (<["tenant-2" := secret]> ∅) |}.

Definition ungrouped : GroupBy :=
  {| enabled := false; groups := []; merge_minor_cost := no_merge |}.

Definition ungrouped_with_spec : GroupBy :=
  {| enabled := false; groups := [service_name]; merge_minor_cost := no_merge |}.

Definition grouped : GroupBy :=
  {| enabled := true; groups := [service_name]; merge_minor_cost := no_merge |}.

Definition grouped_merge : GroupBy :=
  {| enabled := true; groups := [service_name]; merge_minor_cost := merge_below_4 |}.

Definition at_time (y m d h mi : Z) : datetime :=
  {| year := y; month := m; day := d; hour := h; minute := mi; second := 0;
     microsecond := 0; tz_utc := false |}.

(** A host whose clock is UTC, on 2024-01-16 at 10:30, and a billing API
    that answers every query with [answer]. *)
Definition world_of (answer : AzureClient -> usage_outcome) : world :=
  {| today := fun _ => at_time 2024 1 16 10 30;
     utcnow := fun _ => at_time 2024 1 16 10 30;
     usage := fun _ c _ _ => answer c;
     float_of_str := fun _ => None;
     str_of_number := fun _ => "" |}.

(** A host two hours east of UTC, on 2024-01-16 at 01:00 local time, which
    is 2024-01-15 at 23:00 UTC. *)
Definition world_east : world :=
  {| today := fun _ => at_time 2024 1 16 1 0;
     utcnow := fun _ => at_time 2024 1 15 23 0;
     usage := fun _ _ _ _ => UsageResult (Some []);
     float_of_str := fun _ => None;
     str_of_number := fun _ => "" |}.

Definition rows_ungrouped : list (list value) :=
  [[VFloat (21 # 2); VFloat 11; VInt 20240115; VStr "USD"]].

Definition rows_grouped : list (list value) :=
  [[VInt 5; VInt 5; VInt 20240115; VStr "USD"; VStr "VM"];
   [VInt 3; VInt 3; VInt 20240115; VStr "USD"; VStr "Storage"]].

Definition rows_refunds : list (list value) :=
  [[VInt (-1); VInt (-1); VInt 20240115; VStr "USD"; VStr "VM"];
   [VInt (-2); VInt (-2); VInt 20240115; VStr "USD"; VStr "Storage"]].

Definition row_minor : list value :=
  [VInt 3; VInt 3; VInt 20240115; VStr "USD"; VStr "Storage"].

(** The state a freshly constructed exporter starts in. *)
Definition start (W : world) (self : MetricExporter) : state :=
  match init self with
  | Return st => st
  | Raise _ =>
      {| azure_daily_cost := {| labelnames := ∅; samples := ∅ |};
         azure_daily_cost_usd := {| labelnames := ∅; samples := ∅ |};
         trace := [] |}
  end.

Definition yesterday : datetime := at_time 2024 1 15 10 30.

Definition row_other_day : list value :=
  [VInt 7; VInt 7; VInt 20240116; VStr "USD"].

Definition row_refund : list value :=
  [VInt (-1); VInt (-1); VInt 20240115; VStr "USD"; VStr "VM"].

Definition row_refund2 : list value :=
  [VInt (-2); VInt (-2); VInt 20240115; VStr "USD"; VStr "Storage"].

Definition world_ungrouped : world :=
  world_of (fun _ => UsageResult (Some rows_ungrouped)).

Definition world_grouped : world :=
  world_of (fun _ => UsageResult (Some rows_grouped)).

Definition world_refunds : world :=
  world_of (fun _ => UsageResult (Some rows_refunds)).

Definition world_minor : world :=
  world_of (fun _ => UsageResult (Some [row_minor])).

(** The query of the first tenant fails, the query of the second succeeds. *)
Definition world_failing : world :=
  world_of (fun c => if String.eqb (tenant_id c) "tenant-1"
                     then HttpResponseError "Too Many Requests"
                     else UsageResult (Some rows_ungrouped)).

Definition exporter_ungrouped : MetricExporter := exporter ungrouped [account].
Definition exporter_two_accounts : MetricExporter := exporter ungrouped [account; account2].
Definition exporter_grouped : MetricExporter := exporter grouped [account].
Definition exporter_merge : MetricExporter := exporter grouped_merge [account].

(** The labels of an observation of [account] in US dollars. *)
Definition labels_usd : gmap string string :=
  <["ChargeType" := "ActualCost"]> (<["Currency" := "USD"]> account).

(** The same with the group label the program gives it. *)
Definition labels_service_usd : gmap string string :=
  <["ServiceName" := "USD"]> labels_usd.

(** The keyword arguments of the merged observation of [account]. *)
Definition merged_labels : gmap string string :=
  <["ChargeType" := "ActualCost"]> (<["ServiceName" := "other"]> account).

Definition row_vm : list value :=
  [VInt 5; VInt 5; VInt 20240115; VStr "USD"; VStr "VM"].

Definition row_short : list value := [VInt 1; VInt 1].

Definition row_no_currency : list value := [VInt 1; VInt 1; VInt 20240115].

Definition row_null_cost : list value := [VNone; VInt 1; VInt 20240115; VStr "USD"].

Definition row_second : list value := [VInt 7; VInt 8; VInt 20240115; VStr "USD"].

(** A target with a label of its own. *)
Definition account_named : gmap string string := <["Name" := "prod"]> account.

(** A target without any key. *)
Definition account_empty : gmap string string := ∅.

Definition exporter_no_secret : MetricExporter :=
  {| polling_interval_seconds := 3600;
     metric_name := "azure_daily_cost";
     metric_name_usd := "azure_daily_cost_usd";
     group_by := ungrouped;
     targets := [account; account2];
     secrets := ∅ |}.

Definition exporter_negative : MetricExporter :=
  {| polling_interval_seconds := -1;
     metric_name := "azure_daily_cost";
     metric_name_usd := "azure_daily_cost_usd";
     group_by := ungrouped;
     targets := [account];
     secrets := <["tenant-1" := secret]> ∅ |}.

(** The billing API cannot be reached: the client raises an exception
    that is not an [HttpResponseError]. *)
Definition world_unreachable : world :=
  world_of (fun _ => UsageRaises (OtherError "ServiceRequestError")).

(** The billing API refuses every query. *)
Definition world_down : world :=
  world_of (fun _ => HttpResponseError "Service Unavailable").

Definition client1 : AzureClient :=
  {| tenant_id := "tenant-1"; client_id := "id"; client_secret := "secret" |}.

End Examples.

(** What the events of a trace do to gauge [g], in order. *)
Definition same_gauge (g g' : gauge_id) : bool :=
  match g, g' with
  | Native, Native | Usd, Usd => true
  | _, _ => false
  end.

Definition replay_event (g : gauge_id) (G : Gauge) (e : event) : Gauge :=
  match e with
  | EClear g' => if same_gauge g g' then Gauge_clear G else G
  | ESet g' l v => if same_gauge g g' then Gauge_set G l v else G
  | _ => G
  end.

Definition replay (g : gauge_id) (t : list event) (G : Gauge) : Gauge :=
  fold_left (replay_event g) t G.

(** ** The observations the specification asks for *)

(** A row is accepted when its date field is the start date of the window. *)
Definition accepted (start_date : datetime) (result : list value) : bool :=
  match result !! 2%nat with
  | Some d => negb (ne_int d (yyyymmdd start_date))
  | None => false
  end.

(** Ungrouped case: the labels of the account, [ChargeType=ActualCost] and
    [Currency] set to the currency field of the row. *)
Definition ungrouped_labels (W : world) (a : gmap string string) (cur : value)
    : gmap string string :=
  <["ChargeType" := "ActualCost"]> (<["Currency" := py_str W cur]> a).

(** Ungrouped case: the observation of a row [[cost, costUsd, date, currency]]
    for gauge [g]; there is none when the row has fewer than four fields or
    a cost that is not a number. *)
Definition ungrouped_observation (W : world) (a : gmap string string) (g : gauge_id)
    (result : list value) : option (gmap string string * Q) :=
  match result with
  | c0 :: c1 :: _ :: cur :: _ =>
      match py_float W c0, py_float W c1 with
      | Return cost, Return costUsd =>
          Some (ungrouped_labels W a cur, match g with Native => cost | Usd => costUsd end)
      | _, _ => None
      end
  | _ => None
  end.

(** Writing a list of observations into the samples of a gauge, in order. *)
Definition write_all (obs : list (gmap string string * Q))
    (m : gmap (gmap string string) Q) : gmap (gmap string string) Q :=
  fold_left (fun m o => <[fst o := snd o]> m) obs m.

Definition is_set (e : event) : Prop :=
  match e with ESet _ _ _ => True | _ => False end.

Definition not_clear (e : event) : Prop :=
  match e with EClear _ => False | _ => True end.

(** The window of one day ending at the date of [now]: from midnight UTC
    of the day before to midnight UTC of that day. *)
Definition day_window (now : datetime) : res QueryTimePeriod :=
  match minus_one_day now with
  | Return y =>
      Return {| from_property := utc_midnight (year y) (month y) (day y);
                to := utc_midnight (year now) (month now) (day now) |}
  | Raise e => Raise e
  end.

(** Two readings of the clock that show the same calendar date. *)
Definition same_date (d1 d2 : datetime) : Prop :=
  year d1 = year d2 /\ month d1 = month d2 /\ day d1 = day d2.

(** A query that fails: the client reports an error status, or raises. *)
Definition query_fails (o : usage_outcome) : Prop :=
  match o with
  | UsageResult _ => False
  | HttpResponseError _ | UsageRaises _ => True
  end.

(** The queries that processing account [a] from state [st] sends. *)
Definition queries_sent (W : world) (self : MetricExporter) (a : gmap string string)
    (st : state) : list QueryDefinition :=
  drop (length (queries (trace st))) (queries (trace (snd (fetch_account W self a st)))).

(** The isolation of failures as the specification words it, for an
    account [a] followed by an account [b]: when the query for [a] is sent
    and fails, as every query for its tenant does, [fetch] still starts
    [b]. *)
Definition failed_query_does_not_prevent_next (W : world) (self : MetricExporter)
    (a b : gmap string string) (st : state) : Prop :=
  forall tenant_a tenant_b,
    a !! "TenantId" = Some tenant_a ->
    b !! "TenantId" = Some tenant_b ->
    queries_sent W self a st <> [] ->
    (forall h c s q, tenant_id c = tenant_a -> query_fails (usage W h c s q)) ->
    In tenant_b (started (trace (snd (fetch_targets W self [a; b] st)))).

(** The window as the specification words it: every query sent for the
    account spans the day before the current date in UTC. *)
Definition query_window_is_utc_day (W : world) (self : MetricExporter)
    (a : gmap string string) (st : state) : Prop :=
  forall tenant q,
    a !! "TenantId" = Some tenant ->
    In q (queries_sent W self a st) ->
    day_window (utcnow W (trace st ++ [EPrint tenant])) = Return (time_period q).

(** The state after the query of an account failed with [reason]. *)
Definition after_failed_query (st : state) (tenant : string) (client : AzureClient)
    (scope : string) (query : QueryDefinition) (reason : string) : state :=
  {| azure_daily_cost := azure_daily_cost st;
     azure_daily_cost_usd := azure_daily_cost_usd st;
     trace := trace st ++ [EPrint tenant; EQuery client scope query; ELogError reason] |}.

(** A trace that starts with the clearing of both gauges and clears
    nothing afterwards. *)
Definition clears_first (t : list event) : Prop :=
  exists body, t = EClear Native :: EClear Usd :: body /\ Forall not_clear body.

(** The state after one observation, with the same labels, has been
    written to both gauges. *)
Definition written (st : state) (labels : gmap string string) (cost costUsd : Q) : state :=
  {| azure_daily_cost := Gauge_set (azure_daily_cost st) labels cost;
     azure_daily_cost_usd := Gauge_set (azure_daily_cost_usd st) labels costUsd;
     trace := trace st ++ [ESet Native labels cost; ESet Usd labels costUsd] |}.

(** The labels of the observation of a row: those of the account, the
    group labels, [ChargeType=ActualCost] and [Currency]. *)
Definition row_labels (W : world) (a group_key_values : gmap string string) (cur : value)
    : gmap string string :=
  <["ChargeType" := "ActualCost"]> (<["Currency" := py_str W cur]> (a ∪ group_key_values)).

(** Every sample of the two gauges is an observation of one of the
    accounts [known]: it carries all the labels of that account, and it is
    labelled [ChargeType=ActualCost]. *)
Definition reports_accounts (known : list (gmap string string)) (st : state) : Prop :=
  forall g child,
    is_Some (samples (get_gauge g st) !! child) ->
    child !! "ChargeType" = Some "ActualCost" /\ exists a, a ∈ known /\ a ⊆ child.

(** A computation that keeps a property of the state. *)
Definition preserves {A} (I : state -> Prop) (c : M A) : Prop :=
  forall st, I st -> I (snd (c st)).

(** The events of [fetch] after the tenant of an account was printed. *)
Definition after_print (e : event) : Prop :=
  match e with
  | ESet _ _ _ | EQuery _ _ _ | ELogError _ => True
  | _ => False
  end.

(** An event that writes nothing to a gauge and clears none. *)
Definition leaves_gauges (e : event) : Prop :=
  match e with
  | ESet _ _ _ | EClear _ => False
  | _ => True
  end.

(** An answer of the billing API that brings no row. *)
Definition brings_no_row (o : usage_outcome) : Prop :=
  match o with
  | UsageResult (Some (_ :: _)) => False
  | _ => True
  end.

(** * Properties *)

(** ** Helper lemmas *)

Open Scope list_scope.

Lemma Qplus_0_l_eq (q : Q) : (0 + q)%Q = q.
Proof.
  destruct q as [n d]. unfold Qplus. simpl. f_equal. lia.
Qed.

Lemma lt_true (a b : Q) : lt a b = true <-> (a < b)%Q.
Proof.
  unfold lt. rewrite negb_true_iff. split.
  - intros H. apply Qnot_le_lt. intros Hle.
    apply Qle_bool_iff in Hle. congruence.
  - intros H. destruct (Qle_bool b a) eqn:E; [|reflexivity].
    apply Qle_bool_iff in E. exfalso. exact (Qlt_not_le _ _ H E).
Qed.

Lemma lt_false (a b : Q) : lt a b = false <-> (b <= a)%Q.
Proof.
  unfold lt. rewrite negb_false_iff. apply Qle_bool_iff.
Qed.

Lemma index_Some {A} (l : list A) (i : nat) (v : A) :
  l !! i = Some v -> index l i = Return v.
Proof. unfold index. intros ->. reflexivity. Qed.

Lemma index_lt {A} (l : list A) (i : nat) :
  (i < length l)%nat -> exists v, l !! i = Some v /\ index l i = Return v.
Proof.
  intros H. destruct (lookup_lt_is_Some_2 l i H) as [v Hv].
  exists v. split; [exact Hv | exact (index_Some _ _ _ Hv)].
Qed.

Lemma observations_app (g : gauge_id) (t1 t2 : list event) :
  observations g (t1 ++ t2) = observations g t1 ++ observations g t2.
Proof.
  induction t1 as [|e t1 IH]; [reflexivity|].
  destruct e; simpl; try exact IH.
  destruct g, g0; simpl; rewrite IH; reflexivity.
Qed.

Lemma queries_app (t1 t2 : list event) :
  queries (t1 ++ t2) = queries t1 ++ queries t2.
Proof.
  induction t1 as [|e t1 IH]; [reflexivity|].
  destruct e; simpl; rewrite ?IH; reflexivity.
Qed.

Lemma started_app (t1 t2 : list event) :
  started (t1 ++ t2) = started t1 ++ started t2.
Proof.
  induction t1 as [|e t1 IH]; [reflexivity|].
  destruct e; simpl; rewrite ?IH; reflexivity.
Qed.

(** What a computation adds to the trace: it only ever appends, every
    appended event satisfies [P], and the appended events account for all
    that happened to the two gauges. *)
Definition emits {A} (P : event -> Prop) (c : M A) : Prop :=
  forall st, exists t,
    trace (snd (c st)) = trace st ++ t /\ Forall P t /\
    forall g, get_gauge g (snd (c st)) = replay g t (get_gauge g st).

Lemma emits_nothing {A} (P : event -> Prop) (c : M A) :
  (forall st, snd (c st) = st) -> emits P c.
Proof.
  intros H st. exists []. rewrite H, app_nil_r.
  split; [reflexivity | split; [constructor | reflexivity]].
Qed.

Lemma emits_ret {A} (P : event -> Prop) (a : A) : emits P (ret a).
Proof. apply emits_nothing. reflexivity. Qed.

Lemma emits_raise {A} (P : event -> Prop) (e : exn) : emits P (@raise A e).
Proof. apply emits_nothing. reflexivity. Qed.

Lemma emits_lift {A} (P : event -> Prop) (r : res A) : emits P (lift r).
Proof. apply emits_nothing. reflexivity. Qed.

Lemma emits_get_trace (P : event -> Prop) : emits P get_trace.
Proof. apply emits_nothing. reflexivity. Qed.

Lemma emits_emit (P : event -> Prop) (e : event) :
  P e -> (forall g G, replay_event g G e = G) -> emits P (modify (emit e)).
Proof.
  intros H Hg st. exists [e]. simpl. split; [reflexivity|].
  split; [repeat constructor; exact H|].
  intros g. unfold replay. simpl. rewrite Hg. destruct g; reflexivity.
Qed.

Lemma emits_bind {A B} (P : event -> Prop) (c : M A) (k : A -> M B) :
  emits P c -> (forall a, emits P (k a)) -> emits P (bind c k).
Proof.
  intros Hc Hk st. unfold bind.
  destruct (Hc st) as [t1 [E1 [F1 G1]]].
  destruct (c st) as [[a|e] st1]; simpl in E1, G1.
  - destruct (Hk a st1) as [t2 [E2 [F2 G2]]].
    exists (t1 ++ t2). rewrite E2, E1, app_assoc.
    split; [reflexivity|]. split; [apply Forall_app; split; assumption|].
    intros g. rewrite G2, G1. unfold replay. rewrite fold_left_app. reflexivity.
  - exists t1. simpl. repeat split; assumption.
Qed.

Lemma emits_weaken {A} (P P' : event -> Prop) (c : M A) :
  (forall e, P e -> P' e) -> emits P c -> emits P' c.
Proof.
  intros HP Hc st. destruct (Hc st) as [t [E [F G]]].
  exists t. split; [exact E|]. split; [exact (Forall_impl _ _ _ F HP) | exact G].
Qed.

Lemma emits_labels_set (P : event -> Prop) (g : gauge_id) (kw : gmap string string) (v : Q) :
  (forall l, P (ESet g l v)) -> emits P (labels_set g kw v).
Proof.
  intros H st. unfold labels_set.
  destruct (Gauge_labels (get_gauge g st) kw) as [child|e]; simpl.
  - exists [ESet g child v]. split; [destruct g; reflexivity|].
    split; [repeat constructor; apply H|].
    intros g'. destruct g, g'; reflexivity.
  - exists []. rewrite app_nil_r. split; [reflexivity | split; [constructor | reflexivity]].
Qed.

Lemma emits_clear (P : event -> Prop) (g : gauge_id) : P (EClear g) -> emits P (clear g).
Proof.
  intros H st. exists [EClear g]. split; [destruct g; reflexivity|].
  split; [repeat constructor; exact H|].
  intros g'. destruct g, g'; reflexivity.
Qed.

Lemma is_set_not_clear (e : event) : is_set e -> not_clear e.
Proof. destruct e; simpl; tauto. Qed.

Lemma queries_is_set (t : list event) : Forall is_set t -> queries t = [].
Proof.
  induction 1 as [|e t He _ IH]; [reflexivity|].
  destruct e; simpl in *; try contradiction. exact IH.
Qed.

Ltac emits_steps :=
  repeat (first [ apply emits_bind; [|intros ?] | apply emits_lift | apply emits_ret
                | apply emits_get_trace
                | apply emits_labels_set; intros ?; exact I
                | apply emits_emit; [exact I | reflexivity] ]).

Section Emission.

Variable W : world.
Variable self : MetricExporter.

Lemma emits_merge_or_set (a gkv : gmap string string) (r : list value) (c cu : Q) :
  emits is_set (merge_or_set W self a gkv r c cu).
Proof.
  unfold merge_or_set.
  destruct (merge_enabled _ && lt c _); [apply emits_ret | emits_steps].
Qed.

Lemma emits_set_merged (a : gmap string string) (m mu : Q) :
  emits is_set (set_merged self a m mu).
Proof.
  unfold set_merged. destruct (lt 0 m); [emits_steps | apply emits_ret].
Qed.

Lemma emits_expose_metrics (a : gmap string string) (r : list value) :
  emits is_set (expose_metrics W self a r).
Proof.
  unfold expose_metrics.
  repeat (apply emits_bind; [apply emits_lift | intros ?]).
  destruct (negb _); [emits_steps|].
  apply emits_bind; [apply emits_lift | intros ?].
  apply emits_bind; [apply emits_merge_or_set | intros ?].
  apply emits_set_merged.
Qed.

Lemma emits_fetch_row (a : gmap string string) (sd : datetime) (r : list value) :
  emits is_set (fetch_row W self a sd r).
Proof.
  unfold fetch_row. apply emits_bind; [apply emits_lift | intros d].
  destruct (ne_int d _); [apply emits_ret | apply emits_expose_metrics].
Qed.

Lemma emits_fetch_rows (a : gmap string string) (sd : datetime) (rows : list (list value)) :
  emits is_set (fetch_rows W self a sd rows).
Proof.
  induction rows as [|r rows IH]; simpl.
  - apply emits_ret.
  - apply emits_bind; [apply emits_fetch_row | intros _; exact IH].
Qed.

Lemma emits_fetch_tenant (a : gmap string string) (tenant : string) :
  emits not_clear (fetch_tenant W self a tenant).
Proof.
  unfold fetch_tenant, query_azure_cost_explorer.
  emits_steps.
  match goal with |- emits _ (match ?o with _ => _ end) => destruct o as [[rows|]|reason|e] end.
  - eapply emits_weaken; [exact is_set_not_clear | apply emits_fetch_rows].
  - apply emits_raise.
  - apply emits_emit; [exact I | reflexivity].
  - apply emits_raise.
Qed.

Lemma emits_fetch_account (a : gmap string string) :
  emits not_clear (fetch_account W self a).
Proof.
  unfold fetch_account.
  apply emits_bind; [apply emits_lift | intros tenant].
  apply emits_bind; [apply emits_emit; [exact I | reflexivity] | intros _].
  apply emits_fetch_tenant.
Qed.

Lemma emits_fetch_targets (accounts : list (gmap string string)) :
  emits not_clear (fetch_targets W self accounts).
Proof.
  induction accounts as [|a accounts IH]; simpl.
  - apply emits_ret.
  - apply emits_bind; [apply emits_fetch_account | intros _; exact IH].
Qed.

Lemma emits_sleep (s : Z) : emits not_clear (sleep s).
Proof.
  unfold sleep.
  destruct (s <? 0)%Z; [apply emits_raise | apply emits_emit; [exact I | reflexivity]].
Qed.

(** Removing a row that [fetch_row] passes over changes nothing. *)
Lemma fetch_rows_skip (a : gmap string string) (sd : datetime) (r : list value) :
  (forall st, fetch_row W self a sd r st = (Return tt, st)) ->
  forall pre post st,
    fetch_rows W self a sd (pre ++ r :: post) st = fetch_rows W self a sd (pre ++ post) st.
Proof.
  intros H pre post. induction pre as [|x pre IH]; intros st; simpl; unfold bind.
  - rewrite H. reflexivity.
  - destruct (fetch_row W self a sd x st) as [[[]|e] st']; [apply IH | reflexivity].
Qed.

Lemma row_group_key_values_total (result : list value) (gs : list Group) :
  forall i acc,
    (i + 3 + length gs <= length result)%nat ->
    exists gkv, row_group_key_values W gs i result acc = Return gkv.
Proof.
  induction gs as [|g gs IH]; intros i acc Hlen; simpl in *.
  - exists acc. reflexivity.
  - destruct (index_lt result (i + 3)) as [v [_ ->]]; [lia|].
    apply IH. lia.
Qed.

End Emission.

(** ** The cost mapper *)

Section Mapper.

Variable W : world.
Variable self : MetricExporter.

Local Abbreviation gb := (group_by self).
Local Abbreviation mmc := (merge_minor_cost (group_by self)).

(** Lines 98-100 on a row below the threshold: nothing is written, and the
    two locals, which started at [0], hold the cost of this row. *)
Lemma merge_or_set_minor (a gkv : gmap string string) (result : list value)
    (cost costUsd : Q) (st : state) :
  merge_enabled mmc = true ->
  (cost < threshold mmc)%Q ->
  merge_or_set W self a gkv result cost costUsd st = (Return (cost, costUsd), st).
Proof.
  intros Hen Hlt. unfold merge_or_set.
  rewrite Hen. apply lt_true in Hlt. rewrite Hlt. simpl.
  unfold ret. rewrite !Qplus_0_l_eq. reflexivity.
Qed.

(** Lines 105-116 when the local is not positive: nothing happens. *)
Lemma set_merged_nonpositive (a : gmap string string) (m mu : Q) (st : state) :
  (m <= 0)%Q -> set_merged self a m mu st = (Return tt, st).
Proof.
  intros H. unfold set_merged. apply lt_false in H. rewrite H. reflexivity.
Qed.

Lemma merged_group_key_values_dom (gs : list Group) (tag : string) :
  forall acc, dom (merged_group_key_values gs tag acc) = dom acc ∪ list_to_set (label_name <$> gs).
Proof.
  induction gs as [|g gs IH]; intros acc; simpl.
  - set_solver.
  - rewrite IH, dom_insert_L. set_solver.
Qed.

Lemma row_group_key_values_dom (result : list value) (gs : list Group) :
  forall i acc gkv,
    row_group_key_values W gs i result acc = Return gkv ->
    dom gkv = dom acc ∪ list_to_set (label_name <$> gs).
Proof.
  induction gs as [|g gs IH]; intros i acc gkv H; simpl in *.
  - injection H as <-. set_solver.
  - destruct (index result (i + 3)) as [v|e]; [|discriminate].
    apply IH in H. rewrite H, dom_insert_L. set_solver.
Qed.

Lemma kwargs_dom (a b kw : gmap string string) :
  kwargs a b = Return kw -> dom kw = dom a ∪ dom b.
Proof.
  unfold kwargs. case_bool_decide as Hd; [|discriminate].
  intros H. injection H as <-. apply dom_union_L.
Qed.

(** The observation of a row carries the keys of the account, the group
    labels given, [ChargeType] and [Currency]. *)
Lemma row_kwargs_dom (a gkv kw : gmap string string) (result : list value) :
  row_kwargs W a gkv result = Return kw ->
  dom kw = dom a ∪ dom gkv ∪ {["ChargeType"; "Currency"]}.
Proof.
  unfold row_kwargs. destruct (kwargs a gkv) as [kw0|e] eqn:E0; [|discriminate].
  destruct (index result 3) as [cur|e]; [|discriminate].
  intros H. apply kwargs_dom in H. apply kwargs_dom in E0.
  rewrite H, E0, dom_insert_L, dom_singleton_L. set_solver.
Qed.

(** The merged observation carries the keys of the account, the group
    labels and [ChargeType]. *)
Lemma merged_kwargs_dom (a gkv kw : gmap string string) :
  merged_kwargs a gkv = Return kw ->
  dom kw = dom a ∪ dom gkv ∪ {["ChargeType"]}.
Proof.
  unfold merged_kwargs. destruct (kwargs a gkv) as [kw0|e] eqn:E0; [|discriminate].
  intros H. apply kwargs_dom in H. apply kwargs_dom in E0.
  rewrite H, E0, dom_singleton_L. reflexivity.
Qed.

(** Lines 105-116 when the local is positive: both gauges were declared
    with a [Currency] label, the merged observation has none unless the
    account or a group supplies one, so the gauge refuses it and nothing is
    written. *)
Lemma set_merged_rejected (a : gmap string string) (m mu : Q) (st : state) :
  (0 < m)%Q ->
  "Currency" ∈ labelnames (azure_daily_cost st) ->
  a !! "Currency" = None ->
  Forall (fun g => label_name g <> "Currency") (groups gb) ->
  exists e, set_merged self a m mu st = (Raise e, st).
Proof.
  intros Hpos Hcur Ha Hg. unfold set_merged.
  apply lt_true in Hpos. rewrite Hpos. unfold bind, lift.
  destruct (merged_kwargs a _) as [kw|e] eqn:E; [|exists e; reflexivity].
  exists ValueError. unfold labels_set, Gauge_labels. simpl.
  case_bool_decide as Hd; [|reflexivity]. exfalso.
  apply merged_kwargs_dom in E. rewrite <- Hd, E, merged_group_key_values_dom in Hcur.
  apply not_elem_of_dom in Ha.
  assert (Hn : "Currency" ∉ (list_to_set (label_name <$> groups (group_by self)) : gset string)).
  { rewrite elem_of_list_to_set, list_elem_of_fmap. intros [g [Hl Hin]].
    rewrite Forall_forall in Hg. apply (Hg g Hin). congruence. }
  set_solver.
Qed.

(** C5: a row whose date field -- an integer [z] -- is not the start date of
    the requested window is passed over: processing it raises nothing and
    leaves both gauges and the trace as they were, and the pass over a
    response is the pass over the response without that row. *)
Theorem C5_other_day_row_is_discarded (a : gmap string string) (start_date : datetime)
    (result : list value) (z : Z) :
  result !! 2%nat = Some (VInt z) ->
  z <> yyyymmdd start_date ->
  (forall st, fetch_row W self a start_date result st = (Return tt, st)) /\
  (forall pre post st,
      fetch_rows W self a start_date (pre ++ result :: post) st
      = fetch_rows W self a start_date (pre ++ post) st).
Proof.
  intros Hd Hz.
  assert (H : forall st, fetch_row W self a start_date result st = (Return tt, st)).
  { intros st. unfold fetch_row, bind, lift. rewrite (index_Some _ _ _ Hd). simpl.
    apply Z.eqb_neq in Hz. rewrite Hz. reflexivity. }
  split; [exact H | apply fetch_rows_skip; exact H].
Qed.

(** C10: with grouping and merge enabled, a well-formed row whose cost is
    below the threshold and not positive produces nothing at all: calling
    [expose_metrics] on it raises nothing and leaves both gauges and the
    trace as they were, and since nothing is carried from one row to the
    next, the pass over a response is the pass over the response without
    that row. *)
Theorem C10_nonpositive_minor_row_leaves_no_trace (a : gmap string string)
    (start_date : datetime) (result : list value) (c0 c1 : value) (cost costUsd : Q) :
  enabled gb = true ->
  merge_enabled mmc = true ->
  result !! 0%nat = Some c0 -> py_float W c0 = Return cost ->
  result !! 1%nat = Some c1 -> py_float W c1 = Return costUsd ->
  (3 + length (groups gb) <= length result)%nat ->
  (cost < threshold mmc)%Q ->
  (cost <= 0)%Q ->
  (forall st, expose_metrics W self a result st = (Return tt, st)) /\
  (forall pre post st,
      fetch_rows W self a start_date (pre ++ result :: post) st
      = fetch_rows W self a start_date (pre ++ post) st).
Proof.
  intros Hen Hmen H0 Hf0 H1 Hf1 Hlen Hlt Hle.
  assert (H : forall st, expose_metrics W self a result st = (Return tt, st)).
  { intros st. unfold expose_metrics, bind, lift.
    rewrite (index_Some _ _ _ H0), Hf0, (index_Some _ _ _ H1), Hf1.
    rewrite Hen. simpl.
    destruct (row_group_key_values_total W result (groups gb) 0 ∅) as [gkv ->]; [simpl; lia|].
    rewrite (merge_or_set_minor a gkv result cost costUsd st Hmen Hlt). simpl.
    apply set_merged_nonpositive. exact Hle. }
  split; [exact H|]. apply fetch_rows_skip. intros st.
  unfold fetch_row, bind, lift.
  destruct (index_lt result 2) as [d [_ ->]]; [lia|].
  destruct (ne_int d _); [reflexivity | apply H].
Qed.

End Mapper.

(** ** The ungrouped case *)

Section Ungrouped.

Variable W : world.
Variable self : MetricExporter.
Variable a : gmap string string.

Hypothesis ungrouped : enabled (group_by self) = false.
Hypothesis no_ChargeType : a !! "ChargeType" = None.
Hypothesis no_Currency : a !! "Currency" = None.

Lemma row_kwargs_ungrouped (c0 c1 d cur : value) (tl : list value) :
  row_kwargs W a ∅ (c0 :: c1 :: d :: cur :: tl) = Return (ungrouped_labels W a cur).
Proof.
  unfold row_kwargs, kwargs. simpl.
  rewrite bool_decide_eq_true_2 by apply map_disjoint_empty_r.
  rewrite (right_id_L ∅ (∪) a).
  rewrite bool_decide_eq_true_2.
  - f_equal. unfold ungrouped_labels.
    rewrite <- insert_union_r by exact no_ChargeType.
    rewrite <- insert_union_singleton_r by exact no_Currency.
    reflexivity.
  - apply map_disjoint_insert_r_2; [exact no_ChargeType|].
    apply map_disjoint_singleton_r_2. exact no_Currency.
Qed.

Lemma ungrouped_labels_dom (cur : value) :
  dom (ungrouped_labels W a cur) = dom a ∪ {["ChargeType"; "Currency"]}.
Proof. unfold ungrouped_labels. rewrite !dom_insert_L. set_solver. Qed.

(** Lines 88-89 on a row of four fields with numeric costs. *)
Lemma expose_metrics_ungrouped (c0 c1 d cur : value) (tl : list value)
    (cost costUsd : Q) (st : state) :
  py_float W c0 = Return cost ->
  py_float W c1 = Return costUsd ->
  labelnames (azure_daily_cost st) = dom a ∪ {["ChargeType"; "Currency"]} ->
  labelnames (azure_daily_cost_usd st) = dom a ∪ {["ChargeType"; "Currency"]} ->
  expose_metrics W self a (c0 :: c1 :: d :: cur :: tl) st =
  (Return tt,
   {| azure_daily_cost := Gauge_set (azure_daily_cost st) (ungrouped_labels W a cur) cost;
      azure_daily_cost_usd :=
        Gauge_set (azure_daily_cost_usd st) (ungrouped_labels W a cur) costUsd;
      trace := trace st ++ [ESet Native (ungrouped_labels W a cur) cost;
                            ESet Usd (ungrouped_labels W a cur) costUsd] |}).
Proof.
  intros Hf0 Hf1 Hn Hu. unfold expose_metrics, bind, lift. simpl.
  rewrite Hf0, Hf1, ungrouped. simpl.
  rewrite row_kwargs_ungrouped.
  unfold labels_set, Gauge_labels. simpl.
  rewrite bool_decide_eq_true_2 by (rewrite Hn; apply ungrouped_labels_dom).
  simpl.
  rewrite bool_decide_eq_true_2 by (rewrite Hu; apply ungrouped_labels_dom).
  unfold emit. simpl. rewrite <- app_assoc. reflexivity.
Qed.

End Ungrouped.

Lemma ungrouped_observation_shape (W : world) (a : gmap string string) (r : list value) :
  is_Some (ungrouped_observation W a Native r) ->
  exists c0 c1 d cur tl cost costUsd,
    r = c0 :: c1 :: d :: cur :: tl /\
    py_float W c0 = Return cost /\ py_float W c1 = Return costUsd.
Proof.
  intros [o Ho]. unfold ungrouped_observation in Ho.
  destruct r as [|c0 [|c1 [|d [|cur tl]]]]; try discriminate.
  destruct (py_float W c0) as [cost|] eqn:E0; [|discriminate].
  destruct (py_float W c1) as [costUsd|] eqn:E1; [|discriminate].
  exists c0, c1, d, cur, tl, cost, costUsd. repeat split; assumption.
Qed.

Lemma fetch_row_four (W : world) (self : MetricExporter) (a : gmap string string)
    (start_date : datetime) (c0 c1 d cur : value) (tl : list value) (st : state) :
  fetch_row W self a start_date (c0 :: c1 :: d :: cur :: tl) st =
  if ne_int d (yyyymmdd start_date) then (Return tt, st)
  else expose_metrics W self a (c0 :: c1 :: d :: cur :: tl) st.
Proof.
  unfold fetch_row, bind, lift, index. simpl.
  destruct (ne_int d (yyyymmdd start_date)); reflexivity.
Qed.

(** C9: with grouping disabled, on a response whose rows all have four
    fields and numeric costs, for an account that carries the label keys
    the gauges were declared with, the pass raises nothing and writes to
    each gauge exactly one observation for each accepted row, in order: its
    labels are those of the account plus [ChargeType=ActualCost] and
    [Currency] = the currency field, its value is the cost (the USD cost
    for the USD gauge); the samples of the gauge are updated accordingly. *)
Theorem C9_ungrouped_one_observation_per_accepted_row (W : world) (self : MetricExporter)
    (a : gmap string string) (start_date : datetime) (rows : list (list value)) (st : state) :
  enabled (group_by self) = false ->
  a !! "ChargeType" = None ->
  a !! "Currency" = None ->
  labelnames (azure_daily_cost st) = dom a ∪ {["ChargeType"; "Currency"]} ->
  labelnames (azure_daily_cost_usd st) = dom a ∪ {["ChargeType"; "Currency"]} ->
  Forall (fun r => is_Some (ungrouped_observation W a Native r)) rows ->
  exists st',
    fetch_rows W self a start_date rows st = (Return tt, st') /\
    forall g, exists new,
      new = omap (ungrouped_observation W a g) (List.filter (accepted start_date) rows) /\
      length new = length (List.filter (accepted start_date) rows) /\
      observations g (trace st') = observations g (trace st) ++ new /\
      samples (get_gauge g st') = write_all new (samples (get_gauge g st)).
Proof.
  intros Hen Hct Hcur Hn Hu Hrows. revert st Hn Hu.
  induction Hrows as [|r rows Hr _ IH]; intros st Hn Hu.
  - exists st. split; [reflexivity|]. intros g. exists []. simpl.
    rewrite app_nil_r. repeat split; reflexivity.
  - destruct (ungrouped_observation_shape W a r Hr)
      as (c0 & c1 & d & cur & tl & cost & costUsd & -> & Hf0 & Hf1).
    change (fetch_rows W self a start_date ((c0 :: c1 :: d :: cur :: tl) :: rows) st)
      with (bind (fetch_row W self a start_date (c0 :: c1 :: d :: cur :: tl))
              (fun _ => fetch_rows W self a start_date rows) st).
    unfold bind. rewrite fetch_row_four.
    change (List.filter (accepted start_date) ((c0 :: c1 :: d :: cur :: tl) :: rows))
      with (if accepted start_date (c0 :: c1 :: d :: cur :: tl)
            then (c0 :: c1 :: d :: cur :: tl) :: List.filter (accepted start_date) rows
            else List.filter (accepted start_date) rows).
    change (accepted start_date (c0 :: c1 :: d :: cur :: tl))
      with (negb (ne_int d (yyyymmdd start_date))).
    destruct (ne_int d (yyyymmdd start_date)); simpl negb; cbv iota.
    + apply IH; assumption.
    + rewrite (expose_metrics_ungrouped W self a Hen Hct Hcur c0 c1 d cur tl cost costUsd st
                 Hf0 Hf1 Hn Hu).
      match goal with |- context [fetch_rows _ _ _ _ _ ?s] => set (st1 := s) end.
      destruct (IH st1 Hn Hu) as [st' [Hrun Hobs]].
      exists st'. split; [exact Hrun|]. intros g.
      destruct (Hobs g) as (new & Hnew & Hlen & Ho & Hs).
      exists ((ungrouped_labels W a cur, match g with Native => cost | Usd => costUsd end)
                :: new).
      split; [rewrite Hnew; simpl; rewrite Hf0, Hf1; reflexivity|].
      split; [simpl; rewrite Hlen; reflexivity|].
      split.
      * rewrite Ho. subst st1. simpl trace. rewrite observations_app.
        destruct g; simpl; rewrite <- app_assoc; reflexivity.
      * rewrite Hs. subst st1. destruct g; reflexivity.
Qed.

(** ** The fetch cycle *)

Section FetchCycle.

Variable W : world.
Variable self : MetricExporter.

(** Processing an account starts by printing its tenant. *)
Lemma fetch_account_starts (a : gmap string string) (tenant : string) (st : state) :
  a !! "TenantId" = Some tenant ->
  exists t, trace (snd (fetch_account W self a st)) = trace st ++ EPrint tenant :: t.
Proof.
  intros Ht. unfold fetch_account, bind at 1, lift, getitem. rewrite Ht.
  unfold bind at 1, modify.
  destruct (emits_fetch_tenant W self a tenant (emit (EPrint tenant) st)) as [t [E _]].
  exists t. rewrite E. simpl. rewrite <- app_assoc. reflexivity.
Qed.

Lemma fetch_targets_starts (a : gmap string string) (rest : list (gmap string string))
    (tenant : string) (st : state) :
  a !! "TenantId" = Some tenant ->
  exists t, trace (snd (fetch_targets W self (a :: rest) st)) = trace st ++ EPrint tenant :: t.
Proof.
  intros Ht. simpl. unfold bind.
  destruct (fetch_account_starts a tenant st Ht) as [t1 E1].
  destruct (fetch_account W self a st) as [[[]|e] st1]; simpl in E1.
  - destruct (emits_fetch_targets W self rest st1) as [t2 [E2 _]].
    exists (t1 ++ t2). rewrite E2, E1, <- app_assoc. reflexivity.
  - exists t1. exact E1.
Qed.

(** C7: when the query for account [a] fails with an [HttpResponseError],
    the reason is logged, the account was queried once and nothing was
    written for it, no exception leaves the iteration, and the tick goes on
    with the remaining accounts from that state; in particular the next
    account is started. *)
Theorem C7_failed_query_skips_only_that_account (a : gmap string string)
    (rest : list (gmap string string)) (st : state)
    (tenant subscription reason : string) (client : AzureClient) (start_date : datetime) :
  a !! "TenantId" = Some tenant ->
  a !! "Subscription" = Some subscription ->
  init_azure_client self tenant = Return client ->
  minus_one_day (today W (trace st ++ [EPrint tenant])) = Return start_date ->
  usage W (trace st ++ [EPrint tenant]) client ("/subscriptions/" ++ subscription)%string
    (query_definition (group_by self) start_date (today W (trace st ++ [EPrint tenant])))
  = HttpResponseError reason ->
  let st' :=
    after_failed_query st tenant client ("/subscriptions/" ++ subscription)%string
      (query_definition (group_by self) start_date (today W (trace st ++ [EPrint tenant])))
      reason in
  fetch_account W self a st = (Return tt, st') /\
  fetch_targets W self (a :: rest) st = fetch_targets W self rest st' /\
  (forall b rest' tenant_b,
      rest = b :: rest' -> b !! "TenantId" = Some tenant_b ->
      exists t, trace (snd (fetch_targets W self (a :: rest) st))
                = trace st' ++ EPrint tenant_b :: t).
Proof.
  intros Ht Hs Hc Hd Hu st'.
  assert (Ha : fetch_account W self a st = (Return tt, st')).
  { unfold fetch_account, fetch_tenant, query_azure_cost_explorer.
    unfold bind, lift, getitem, modify, get_trace, ret. rewrite Ht, Hc. simpl.
    rewrite Hd, Hs, Hu. unfold st', after_failed_query, emit. simpl.
    rewrite <- !app_assoc. reflexivity. }
  assert (Hr : fetch_targets W self (a :: rest) st = fetch_targets W self rest st').
  { simpl. unfold bind. rewrite Ha. reflexivity. }
  split; [exact Ha|]. split; [exact Hr|].
  intros b rest' tenant_b -> Hb. rewrite Hr.
  apply fetch_targets_starts. exact Hb.
Qed.

(** One tick, seen from its trace and its gauges. *)
Lemma tick_clears_first (st : state) :
  exists body,
    trace (snd (tick W self st)) = trace st ++ EClear Native :: EClear Usd :: body /\
    Forall not_clear body /\
    forall g, get_gauge g (snd (tick W self st)) = replay g body (Gauge_clear (get_gauge g st)).
Proof.
  unfold tick. unfold bind at 1, clear at 1, modify. unfold bind at 1, clear at 1, modify.
  match goal with |- context [bind _ _ ?s] => set (st0 := s) end.
  assert (He : emits not_clear
                 (fetch W self ;;; sleep (polling_interval_seconds self))).
  { apply emits_bind; [apply emits_fetch_targets | intros _; apply emits_sleep]. }
  destruct (He st0) as [body [E [F G]]].
  exists body. split; [|split].
  - rewrite E. subst st0. simpl. rewrite <- !app_assoc. reflexivity.
  - exact F.
  - intros g. rewrite G. subst st0. destruct g; reflexivity.
Qed.

(** C8: every tick first clears both gauges and only then fetches: the
    tick continues from a state in which both gauges are empty; what a tick
    adds to the trace starts with the two clearings and clears nothing
    afterwards, and what the gauges hold after the tick is what the
    observations of that tick wrote into empty gauges.  This holds for each
    of the iterations of the loop, the first one included: the trace of [n]
    iterations is a sequence of such ticks, [n] of them when no exception
    ends the loop. *)
Theorem C8_every_tick_clears_both_gauges_first :
  (forall st, exists st0,
      tick W self st = (fetch W self ;;; sleep (polling_interval_seconds self)) st0 /\
      samples (azure_daily_cost st0) = ∅ /\
      samples (azure_daily_cost_usd st0) = ∅ /\
      trace st0 = trace st ++ [EClear Native; EClear Usd]) /\
  (forall st, exists body,
      trace (snd (tick W self st)) = trace st ++ EClear Native :: EClear Usd :: body /\
      Forall not_clear body /\
      forall g, get_gauge g (snd (tick W self st)) = replay g body (Gauge_clear (get_gauge g st))) /\
  (forall n st, exists ticks,
      trace (snd (run_metrics_loop W self n st)) = trace st ++ concat ticks /\
      Forall clears_first ticks /\
      (length ticks <= n)%nat /\
      (fst (run_metrics_loop W self n st) = Return tt -> length ticks = n)).
Proof.
  split; [|split].
  - intros st. eexists. split; [reflexivity|]. simpl.
    rewrite <- app_assoc. repeat split; reflexivity.
  - exact tick_clears_first.
  - induction n as [|n IH]; intros st.
    + exists []. simpl. rewrite app_nil_r. repeat split; [constructor | lia].
    + simpl. unfold bind.
      destruct (tick_clears_first st) as [body [E [F _]]].
      destruct (tick W self st) as [[[]|e] st1]; simpl in E.
      * destruct (IH st1) as [ticks [E' [F' [L' R']]]].
        exists ((EClear Native :: EClear Usd :: body) :: ticks).
        split; [rewrite E', E; simpl; rewrite <- app_assoc; reflexivity|].
        split; [constructor; [exists body; split; [reflexivity | exact F] | exact F']|].
        split; [simpl; lia|]. intros H. simpl. rewrite (R' H). reflexivity.
      * exists [EClear Native :: EClear Usd :: body]. simpl. rewrite app_nil_r.
        split; [exact E|].
        split; [repeat constructor; exists body; split; [reflexivity | exact F]|].
        split; [lia | discriminate].
Qed.

End FetchCycle.

(** ** The query window *)

Lemma same_date_sym (d1 d2 : datetime) : same_date d1 d2 -> same_date d2 d1.
Proof. intros (Hy & Hm & Hd). repeat split; congruence. Qed.

(** The window of a day depends on the calendar date alone. *)
Lemma day_window_same_date (d1 d2 : datetime) :
  same_date d1 d2 -> day_window d1 = day_window d2.
Proof.
  intros (Hy & Hm & Hd). unfold day_window, minus_one_day. rewrite Hy, Hm, Hd.
  destruct (1 <? day d2)%Z; [reflexivity|].
  destruct (1 <? month d2)%Z; [reflexivity|].
  destruct (1 <? year d2)%Z; reflexivity.
Qed.

(** Two dates with the same window are the same date. *)
Lemma day_window_inj (d1 d2 : datetime) (p : QueryTimePeriod) :
  day_window d1 = Return p -> day_window d2 = Return p -> same_date d1 d2.
Proof.
  unfold day_window. intros H1 H2.
  destruct (minus_one_day d1) as [y1|]; [|discriminate].
  destruct (minus_one_day d2) as [y2|]; [|discriminate].
  injection H1 as <-. injection H2. intros.
  repeat split; congruence.
Qed.

Section QueryWindow.

Variable W : world.
Variable self : MetricExporter.

Lemma queries_print (tenant : string) (t : list event) :
  queries (EPrint tenant :: t) = queries t.
Proof. reflexivity. Qed.

(** What [fetch_tenant] sends: nothing when it fails before the query,
    else the one query built from the clock reading of that moment. *)
Lemma fetch_tenant_queries (a : gmap string string) (tenant : string) (st : state) :
  exists t,
    trace (snd (fetch_tenant W self a tenant st)) = trace st ++ t /\
    match init_azure_client self tenant, minus_one_day (today W (trace st)),
          a !! "Subscription" with
    | Return _, Return start_date, Some _ =>
        queries t = [query_definition (group_by self) start_date (today W (trace st))]
    | _, _, _ => queries t = []
    end.
Proof.
  unfold fetch_tenant, bind at 1, lift.
  destruct (init_azure_client self tenant) as [client|e].
  2: { exists []. rewrite app_nil_r. split; reflexivity. }
  unfold bind at 1, get_trace. unfold bind at 1.
  destruct (minus_one_day (today W (trace st))) as [start_date|e].
  2: { exists []. rewrite app_nil_r. split; reflexivity. }
  unfold bind at 1, getitem.
  destruct (a !! "Subscription") as [subscription|].
  2: { exists []. rewrite app_nil_r. split; reflexivity. }
  unfold bind at 1, query_azure_cost_explorer, bind, get_trace, modify, ret.
  set (q := query_definition (group_by self) start_date (today W (trace st))).
  set (scope := ("/subscriptions/" ++ subscription)%string).
  destruct (usage W (trace st) client scope q) as [[rows|]|reason|e].
  - destruct (emits_fetch_rows W self a start_date rows (emit (EQuery client scope q) st))
      as [t [E [F _]]].
    exists (EQuery client scope q :: t). rewrite E. simpl. rewrite <- app_assoc.
    split; [reflexivity|]. rewrite (queries_is_set t F). reflexivity.
  - exists [EQuery client scope q]. split; reflexivity.
  - exists [EQuery client scope q; ELogError reason]. simpl. rewrite <- app_assoc.
    split; reflexivity.
  - exists [EQuery client scope q]. split; reflexivity.
Qed.

Lemma queries_sent_app (a : gmap string string) (st : state) (t : list event) :
  trace (snd (fetch_account W self a st)) = trace st ++ t ->
  queries_sent W self a st = queries t.
Proof.
  intros E. unfold queries_sent. rewrite E, queries_app. apply drop_app_length.
Qed.

(** What [fetch_account] sends. *)
Lemma fetch_account_queries (a : gmap string string) (st : state) :
  match a !! "TenantId" with
  | Some tenant =>
      match init_azure_client self tenant,
            minus_one_day (today W (trace st ++ [EPrint tenant])),
            a !! "Subscription" with
      | Return _, Return start_date, Some _ =>
          queries_sent W self a st
          = [query_definition (group_by self) start_date
               (today W (trace st ++ [EPrint tenant]))]
      | _, _, _ => queries_sent W self a st = []
      end
  | None => queries_sent W self a st = []
  end.
Proof.
  destruct (a !! "TenantId") as [tenant|] eqn:Ht.
  - destruct (fetch_tenant_queries a tenant (emit (EPrint tenant) st)) as [t [E Hq]].
    assert (Hs : queries_sent W self a st = queries t).
    { rewrite (queries_sent_app a st (EPrint tenant :: t)); [reflexivity|].
      unfold fetch_account, bind, lift, getitem, modify. rewrite Ht.
      rewrite E. simpl. rewrite <- app_assoc. reflexivity. }
    rewrite Hs. exact Hq.
  - apply (queries_sent_app a st []).
    unfold fetch_account, bind, lift, getitem. rewrite Ht. simpl.
    rewrite app_nil_r. reflexivity.
Qed.

(** C6 (as the program has it): at most one query is sent for an account,
    and it is sent whenever the account has a tenant, a subscription and a
    secret; its window runs from midnight UTC of the day before the current
    date to midnight UTC of the current date, where the current date is the
    calendar date of [datetime.today()], the local date of the host, read
    once for that account.  It is the window of the current date in UTC
    exactly when the local clock and the clock in UTC show the same
    calendar date at that moment. *)
Theorem C6_query_window_is_the_day_before_today (a : gmap string string) (st : state) :
  (length (queries_sent W self a st) <= 1)%nat /\
  (forall tenant q,
      a !! "TenantId" = Some tenant ->
      In q (queries_sent W self a st) ->
      day_window (today W (trace st ++ [EPrint tenant])) = Return (time_period q)) /\
  (forall tenant subscription client start_date,
      a !! "TenantId" = Some tenant ->
      a !! "Subscription" = Some subscription ->
      init_azure_client self tenant = Return client ->
      minus_one_day (today W (trace st ++ [EPrint tenant])) = Return start_date ->
      exists q, queries_sent W self a st = [q]) /\
  (forall tenant q,
      a !! "TenantId" = Some tenant ->
      In q (queries_sent W self a st) ->
      (day_window (utcnow W (trace st ++ [EPrint tenant])) = Return (time_period q) <->
       same_date (today W (trace st ++ [EPrint tenant]))
         (utcnow W (trace st ++ [EPrint tenant])))).
Proof.
  pose proof (fetch_account_queries a st) as H.
  assert (Hlocal : forall tenant q,
             a !! "TenantId" = Some tenant ->
             In q (queries_sent W self a st) ->
             day_window (today W (trace st ++ [EPrint tenant])) = Return (time_period q)).
  { intros tenant q Ht Hin. rewrite Ht in H. unfold day_window.
    destruct (init_azure_client self tenant);
      [|rewrite H in Hin; contradiction].
    destruct (minus_one_day (today W (trace st ++ [EPrint tenant]))) as [start_date|];
      [|rewrite H in Hin; contradiction].
    destruct (a !! "Subscription"); rewrite H in Hin; [|contradiction].
    destruct Hin as [<-|[]]. reflexivity. }
  split; [|split; [exact Hlocal | split]].
  - destruct (a !! "TenantId") as [tenant|]; [|rewrite H; simpl; lia].
    destruct (init_azure_client self tenant); [|rewrite H; simpl; lia].
    destruct (minus_one_day (today W (trace st ++ [EPrint tenant])));
      [|rewrite H; simpl; lia].
    destruct (a !! "Subscription"); rewrite H; simpl; lia.
  - intros tenant subscription client start_date Ht Hs Hc Hd.
    rewrite Ht, Hc, Hd, Hs in H. eexists. exact H.
  - intros tenant q Ht Hin. pose proof (Hlocal tenant q Ht Hin) as Hq. split.
    + intros Hu. apply (day_window_inj _ _ (time_period q)); assumption.
    + intros Hs. rewrite <- (day_window_same_date _ _ Hs). exact Hq.
Qed.

End QueryWindow.

(** ** The scenarios of the specification, evaluated *)

Import Examples.

(** Equalities between closed terms are checked by evaluating both sides. *)
Ltac by_evaluation :=
  cbv zeta; repeat split;
  match goal with |- ?x = ?y => vm_cast_no_check (@eq_refl _ y) end.

(** C1: the minor-cost accumulator is not a running sum over the rows of an
    account.  On the two refund rows of cost -1 and -2, with the threshold
    at 4, the local accumulators hold (-1, -1) after the first row and
    (-2, -2), not (-3, -3), after the second: they restart from 0 with each
    call of [expose_metrics], and nothing is carried in the state. *)
Lemma C1_accumulator_restarts_with_each_row :
  let st0 := start world_refunds exporter_merge in
  merge_or_set world_refunds exporter_merge account {["ServiceName" := "USD"]}
    row_refund (inject_Z (-1)) (inject_Z (-1)) st0
  = (Return (inject_Z (-1), inject_Z (-1)), st0) /\
  merge_or_set world_refunds exporter_merge account {["ServiceName" := "USD"]}
    row_refund2 (inject_Z (-2)) (inject_Z (-2))
    (snd (fetch_row world_refunds exporter_merge account yesterday row_refund st0))
  = (Return (inject_Z (-2), inject_Z (-2)), st0) /\
  fetch_rows world_refunds exporter_merge account yesterday rows_refunds st0
  = (Return tt, st0).
Proof. by_evaluation. Qed.

(** C2: with the threshold at 4, the one row of cost 3 is merged, and the
    merged observation is handed to the gauge in the same call, with the
    cost of that row alone and without the [Currency] label the gauge was
    declared with: the gauge refuses it with a [ValueError], nothing is
    written to either gauge, and the exception ends the whole fetch. *)
Lemma C2_merged_observation_is_refused :
  let st0 := start world_minor exporter_merge in
  expose_metrics world_minor exporter_merge account row_minor st0 = (Raise ValueError, st0) /\
  fst (fetch world_minor exporter_merge st0) = Raise ValueError /\
  observations Native (trace (snd (fetch world_minor exporter_merge st0))) = [] /\
  observations Usd (trace (snd (fetch world_minor exporter_merge st0))) = [] /\
  samples (azure_daily_cost (snd (fetch world_minor exporter_merge st0))) = ∅ /\
  samples (azure_daily_cost_usd (snd (fetch world_minor exporter_merge st0))) = ∅.
Proof. by_evaluation. Qed.

(** C3: on the two rows of the scenario the group label [ServiceName] is
    read from field 3 of the row, which is the currency: both rows are
    written with [ServiceName=USD], neither with [VM] or [Storage], and
    since their label sets are equal the second overwrites the first, so
    each gauge ends with the single sample 3. *)
Lemma C3_group_label_is_read_from_the_currency_field :
  let st0 := start world_grouped exporter_grouped in
  let st1 := snd (fetch world_grouped exporter_grouped st0) in
  fst (fetch world_grouped exporter_grouped st0) = Return tt /\
  observations Native (trace st1)
  = [(labels_service_usd, inject_Z 5); (labels_service_usd, inject_Z 3)] /\
  observations Usd (trace st1)
  = [(labels_service_usd, inject_Z 5); (labels_service_usd, inject_Z 3)] /\
  samples (azure_daily_cost st1) = {[labels_service_usd := inject_Z 3]} /\
  samples (azure_daily_cost_usd st1) = {[labels_service_usd := inject_Z 3]} /\
  labels_service_usd !! "ServiceName" = Some "USD".
Proof. by_evaluation. Qed.

(** C4: the gauges are declared with the keys of the first target,
    [ChargeType], [Currency] and the group label; the merged observation
    supplies all of them but [Currency], and the gauge refuses it. *)
Lemma C4_merged_observation_lacks_the_Currency_key :
  let st0 := start world_minor exporter_merge in
  init_labels exporter_merge
  = Return {["TenantId"; "Subscription"; "ChargeType"; "Currency"; "ServiceName"]} /\
  merged_kwargs account (merged_group_key_values (groups grouped_merge) "other" ∅)
  = Return merged_labels /\
  dom merged_labels = ({["TenantId"; "Subscription"; "ChargeType"; "ServiceName"]} : gset string) /\
  labels_set Native merged_labels (inject_Z 3) st0 = (Raise ValueError, st0) /\
  labels_set Usd merged_labels (inject_Z 3) st0 = (Raise ValueError, st0).
Proof. by_evaluation. Qed.

(** C5, on a row dated 2024-01-16 when the window starts on 2024-01-15. *)
Lemma C5_witness :
  fetch_row world_ungrouped exporter_ungrouped account yesterday row_other_day
    (start world_ungrouped exporter_ungrouped)
  = (Return tt, start world_ungrouped exporter_ungrouped).
Proof.
  apply (proj1 (C5_other_day_row_is_discarded world_ungrouped exporter_ungrouped account
                  yesterday row_other_day 20240116 eq_refl ltac:(vm_compute; discriminate))).
Defined.

(** C6 as worded fails on a host east of UTC shortly after local midnight:
    the window sent ends on 2024-01-16, the local date, while the date in
    UTC is still 2024-01-15. *)
Lemma C6_counterexample :
  ~ query_window_is_utc_day world_east exporter_ungrouped account
      (start world_east exporter_ungrouped).
Proof.
  intros H.
  specialize (H "tenant-1"
                (query_definition ungrouped (at_time 2024 1 15 1 0) (at_time 2024 1 16 1 0))
                eq_refl).
  assert (Hin : In (query_definition ungrouped (at_time 2024 1 15 1 0) (at_time 2024 1 16 1 0))
                  (queries_sent world_east exporter_ungrouped account
                     (start world_east exporter_ungrouped))).
  { vm_compute. left. reflexivity. }
  specialize (H Hin). vm_compute in H. discriminate H.
Qed.

(** C6, on that host: the one query sent spans the local day before. *)
Lemma C6_witness :
  exists q,
    queries_sent world_east exporter_ungrouped account (start world_east exporter_ungrouped)
    = [q].
Proof.
  apply (proj1 (proj2 (proj2 (C6_query_window_is_the_day_before_today world_east
                                exporter_ungrouped account
                                (start world_east exporter_ungrouped))))
           "tenant-1" "sub-1"
           {| tenant_id := "tenant-1"; client_id := "id"; client_secret := "secret" |}
           (at_time 2024 1 15 1 0)); reflexivity.
Defined.

(** C7 as worded fails when the query fails with an exception that is not
    an [HttpResponseError] -- the billing API cannot be reached: the
    exception leaves [fetch] and the second account is never started. *)
Lemma C7_counterexample :
  ~ failed_query_does_not_prevent_next world_unreachable exporter_two_accounts
      account account2 (start world_unreachable exporter_two_accounts).
Proof.
  intros H.
  assert (Hq : queries_sent world_unreachable exporter_two_accounts account
                 (start world_unreachable exporter_two_accounts) <> []).
  { intros Hq. apply (f_equal (@length _)) in Hq. vm_compute in Hq. discriminate Hq. }
  specialize (H "tenant-1" "tenant-2" eq_refl eq_refl Hq (fun _ _ _ _ _ => I)).
  assert (E : started (trace (snd (fetch_targets world_unreachable exporter_two_accounts
                                     [account; account2]
                                     (start world_unreachable exporter_two_accounts))))
              = ["tenant-1"]) by by_evaluation.
  rewrite E in H. destruct H as [H|[]]. discriminate H.
Qed.

(** C7, on two accounts of which the first is refused by the billing API:
    the second is still started. *)
Lemma C7_witness :
  exists t,
    trace (snd (fetch world_failing exporter_two_accounts
                  (start world_failing exporter_two_accounts)))
    = [EPrint "tenant-1";
       EQuery {| tenant_id := "tenant-1"; client_id := "id"; client_secret := "secret" |}
         "/subscriptions/sub-1" (query_definition ungrouped yesterday (at_time 2024 1 16 10 30));
       ELogError "Too Many Requests"] ++ EPrint "tenant-2" :: t.
Proof.
  apply (proj2 (proj2 (C7_failed_query_skips_only_that_account world_failing
                         exporter_two_accounts account [account2]
                         (start world_failing exporter_two_accounts)
                         "tenant-1" "sub-1" "Too Many Requests"
                         {| tenant_id := "tenant-1"; client_id := "id";
                            client_secret := "secret" |}
                         yesterday eq_refl eq_refl eq_refl eq_refl eq_refl))
           account2 [] "tenant-2" eq_refl eq_refl).
Defined.

(** C9, on the scenario of the specification: the single row
    [[10.5, 11.0, 20240115, "USD"]] with the window starting on 2024-01-15
    gives one observation in each gauge, 10.5 and 11.0, labelled
    [Currency=USD] and [ChargeType=ActualCost]. *)
Lemma C9_witness :
  exists st',
    fetch_rows world_ungrouped exporter_ungrouped account yesterday rows_ungrouped
      (start world_ungrouped exporter_ungrouped) = (Return tt, st') /\
    observations Native (trace st') = [(labels_usd, 21 # 2)] /\
    observations Usd (trace st') = [(labels_usd, 11 # 1)] /\
    samples (azure_daily_cost st') = {[labels_usd := 21 # 2]} /\
    samples (azure_daily_cost_usd st') = {[labels_usd := 11 # 1]}.
Proof.
  destruct (C9_ungrouped_one_observation_per_accepted_row world_ungrouped exporter_ungrouped
              account yesterday rows_ungrouped (start world_ungrouped exporter_ungrouped)
              eq_refl eq_refl eq_refl
              ltac:(by_evaluation) ltac:(by_evaluation)
              ltac:(repeat constructor; eexists; by_evaluation))
    as [st' [Hrun Hobs]].
  exists st'. split; [exact Hrun|].
  destruct (Hobs Native) as (n & Hn & _ & Hon & Hsn).
  destruct (Hobs Usd) as (u & Hu & _ & Hou & Hsu).
  change (get_gauge Native st') with (azure_daily_cost st') in Hsn.
  change (get_gauge Usd st') with (azure_daily_cost_usd st') in Hsu.
  rewrite Hon, Hou, Hsn, Hsu, Hn, Hu.
  by_evaluation.
Defined.

(** C10, on a refund of 1 with the threshold at 4. *)
Lemma C10_witness :
  expose_metrics world_refunds exporter_merge account row_refund
    (start world_refunds exporter_merge)
  = (Return tt, start world_refunds exporter_merge).
Proof.
  apply (proj1 (C10_nonpositive_minor_row_leaves_no_trace world_refunds exporter_merge account
                  yesterday row_refund (VInt (-1)) (VInt (-1)) (inject_Z (-1)) (inject_Z (-1))
                  eq_refl eq_refl eq_refl eq_refl eq_refl eq_refl
                  ltac:(vm_compute; lia) ltac:(reflexivity) ltac:(discriminate))).
Defined.

(** * Further properties of the exporter *)

(** ** Grouped rows *)

Section Grouped.

Variable W : world.
Variable self : MetricExporter.

Local Abbreviation gb := (group_by self).
Local Abbreviation mmc := (merge_minor_cost (group_by self)).

Lemma explicit_kwargs (kw : gmap string string) (cur : string) :
  kw !! "ChargeType" = None ->
  kw !! "Currency" = None ->
  kwargs kw (<["ChargeType" := "ActualCost"]> {["Currency" := cur]})
  = Return (<["ChargeType" := "ActualCost"]> (<["Currency" := cur]> kw)).
Proof.
  intros Hct Hcur. unfold kwargs.
  rewrite bool_decide_eq_true_2.
  - f_equal. rewrite <- insert_union_r by exact Hct.
    rewrite <- insert_union_singleton_r by exact Hcur. reflexivity.
  - apply map_disjoint_insert_r_2; [exact Hct|].
    apply map_disjoint_singleton_r_2. exact Hcur.
Qed.

Lemma row_kwargs_grouped (a gkv : gmap string string) (result : list value) (cur : value) :
  a ##ₘ gkv ->
  (a ∪ gkv) !! "ChargeType" = None ->
  (a ∪ gkv) !! "Currency" = None ->
  result !! 3%nat = Some cur ->
  row_kwargs W a gkv result = Return (row_labels W a gkv cur).
Proof.
  intros Hd Hct Hcur H3. unfold row_kwargs, kwargs at 1.
  rewrite bool_decide_eq_true_2 by exact Hd.
  rewrite (index_Some _ _ _ H3). apply explicit_kwargs; assumption.
Qed.

Lemma row_labels_dom (a gkv : gmap string string) (cur : value) :
  dom (row_labels W a gkv cur) = dom a ∪ dom gkv ∪ {["ChargeType"; "Currency"]}.
Proof. unfold row_labels. rewrite !dom_insert_L, dom_union_L. set_solver. Qed.

(** A label that no group carries keeps the value it had. *)
Lemma row_group_key_values_other (result : list value) (l : string) (gs : list Group) :
  forall i acc gkv,
    l ∉ label_name <$> gs ->
    row_group_key_values W gs i result acc = Return gkv ->
    gkv !! l = acc !! l.
Proof.
  induction gs as [|g gs IH]; intros i acc gkv Hl H; simpl in *.
  - injection H as <-. reflexivity.
  - destruct (index result (i + 3)) as [v|e]; [|discriminate].
    apply not_elem_of_cons in Hl as [Hne Hl].
    rewrite (IH _ _ _ Hl H). apply lookup_insert_ne. congruence.
Qed.

(** Lines 94-96: the label of the group at position [k] is given field
    [k + 3] of the row. *)
Lemma row_group_key_values_lookup (result : list value) (gs : list Group) :
  forall i acc gkv k g,
    NoDup (label_name <$> gs) ->
    row_group_key_values W gs i result acc = Return gkv ->
    gs !! k = Some g ->
    exists v, result !! (i + k + 3)%nat = Some v /\ gkv !! label_name g = Some (py_str W v).
Proof.
  induction gs as [|g0 gs IH]; intros i acc gkv k g Hnd H Hk; [discriminate|].
  simpl in H. unfold index in H.
  destruct (result !! (i + 3)%nat) as [v|] eqn:Hv; [|discriminate].
  apply NoDup_cons in Hnd as [Hnotin Hnd].
  destruct k as [|k]; simpl in Hk.
  - injection Hk as <-. exists v. split.
    + rewrite Nat.add_0_r. exact Hv.
    + rewrite (row_group_key_values_other result _ gs _ _ _ Hnotin H).
      apply lookup_insert_eq.
  - destruct (IH (S i) _ gkv k g Hnd H Hk) as [v' [Hv' Hl]].
    exists v'. split; [|exact Hl].
    replace (i + S k + 3)%nat with (S i + k + 3)%nat by lia. exact Hv'.
Qed.

End Grouped.

(** X1: with grouping enabled, a row that is not merged (merging disabled,
    or a cost not below the threshold) is written once to each gauge, with
    the labels of the account, the group labels read from the row,
    [ChargeType=ActualCost] and [Currency] = field 3, and with the cost (the
    USD cost for the USD gauge); no merged observation follows. *)
Theorem grouped_row_is_written_once (W : world) (self : MetricExporter)
    (a gkv : gmap string string) (result : list value) (c0 c1 cur : value)
    (cost costUsd : Q) (st : state) :
  enabled (group_by self) = true ->
  result !! 0%nat = Some c0 -> py_float W c0 = Return cost ->
  result !! 1%nat = Some c1 -> py_float W c1 = Return costUsd ->
  result !! 3%nat = Some cur ->
  row_group_key_values W (groups (group_by self)) 0 result ∅ = Return gkv ->
  merge_enabled (merge_minor_cost (group_by self)) = false \/
    (threshold (merge_minor_cost (group_by self)) <= cost)%Q ->
  a ##ₘ gkv ->
  (a ∪ gkv) !! "ChargeType" = None ->
  (a ∪ gkv) !! "Currency" = None ->
  labelnames (azure_daily_cost st) = dom a ∪ dom gkv ∪ {["ChargeType"; "Currency"]} ->
  labelnames (azure_daily_cost_usd st) = dom a ∪ dom gkv ∪ {["ChargeType"; "Currency"]} ->
  expose_metrics W self a result st
  = (Return tt, written st (row_labels W a gkv cur) cost costUsd).
Proof.
  intros Hen H0 Hf0 H1 Hf1 H3 Hg Hm Hd Hct Hcur Hn Hu.
  unfold expose_metrics, bind, lift.
  rewrite (index_Some _ _ _ H0), Hf0, (index_Some _ _ _ H1), Hf1, Hen, Hg. simpl.
  unfold merge_or_set.
  assert (Hc : merge_enabled (merge_minor_cost (group_by self))
               && lt cost (threshold (merge_minor_cost (group_by self))) = false).
  { destruct Hm as [-> | Hle]; [reflexivity|].
    apply lt_false in Hle. rewrite Hle. apply andb_false_r. }
  rewrite Hc. unfold bind, lift.
  rewrite (row_kwargs_grouped W a gkv result cur Hd Hct Hcur H3).
  unfold labels_set, Gauge_labels. simpl.
  rewrite bool_decide_eq_true_2 by (rewrite Hn; apply row_labels_dom).
  simpl.
  rewrite bool_decide_eq_true_2 by (rewrite Hu; apply row_labels_dom).
  unfold written, emit. simpl. rewrite <- app_assoc. reflexivity.
Qed.

(** X2: with distinct group label names, the label of the group at
    position [k] is written with field [k + 3] of the row; the first group
    is therefore given field 3, the field that is also written as
    [Currency]. *)
Theorem group_label_is_field_k_plus_3 (W : world) (self : MetricExporter)
    (a gkv : gmap string string) (result : list value) (cur : value) :
  NoDup (label_name <$> groups (group_by self)) ->
  row_group_key_values W (groups (group_by self)) 0 result ∅ = Return gkv ->
  a ##ₘ gkv ->
  Forall (fun g => label_name g <> "ChargeType" /\ label_name g <> "Currency")
    (groups (group_by self)) ->
  result !! 3%nat = Some cur ->
  (forall k g, groups (group_by self) !! k = Some g ->
     exists v, result !! (k + 3)%nat = Some v /\
               row_labels W a gkv cur !! label_name g = Some (py_str W v)) /\
  (forall g gs, groups (group_by self) = g :: gs ->
     row_labels W a gkv cur !! label_name g = row_labels W a gkv cur !! "Currency").
Proof.
  intros Hnd Hg Hd Hne H3.
  assert (Hk : forall k g, groups (group_by self) !! k = Some g ->
     exists v, result !! (k + 3)%nat = Some v /\
               row_labels W a gkv cur !! label_name g = Some (py_str W v)).
  { intros k g Hk.
    destruct (row_group_key_values_lookup W result _ 0 ∅ gkv k g Hnd Hg Hk) as [v [Hv Hl]].
    exists v. split; [exact Hv|].
    rewrite Forall_forall in Hne. destruct (Hne g) as [N1 N2].
    { apply list_elem_of_lookup. exists k. exact Hk. }
    unfold row_labels. rewrite lookup_insert_ne by congruence.
    rewrite lookup_insert_ne by congruence.
    apply lookup_union_Some_raw. right. split; [|exact Hl].
    apply (map_disjoint_Some_r _ _ _ _ Hd Hl). }
  split; [exact Hk|].
  intros g gs E. destruct (Hk 0%nat g) as [v [Hv Hl]]; [rewrite E; reflexivity|].
  simpl in Hv. rewrite H3 in Hv. injection Hv as <-. rewrite Hl.
  unfold row_labels. rewrite lookup_insert_ne by discriminate.
  rewrite lookup_insert_eq. reflexivity.
Qed.

(** X3: with grouping and merging enabled, a row whose cost is positive
    and below the threshold cannot be processed: the merged observation it
    leads to has no [Currency] label (unless the account or a group
    supplies one), the gauge refuses it, nothing is written, and
    [expose_metrics] raises. *)
Theorem positive_minor_row_raises (W : world) (self : MetricExporter)
    (a : gmap string string) (result : list value) (c0 c1 : value)
    (cost costUsd : Q) (st : state) :
  enabled (group_by self) = true ->
  merge_enabled (merge_minor_cost (group_by self)) = true ->
  result !! 0%nat = Some c0 -> py_float W c0 = Return cost ->
  result !! 1%nat = Some c1 -> py_float W c1 = Return costUsd ->
  (3 + length (groups (group_by self)) <= length result)%nat ->
  (0 < cost)%Q ->
  (cost < threshold (merge_minor_cost (group_by self)))%Q ->
  "Currency" ∈ labelnames (azure_daily_cost st) ->
  a !! "Currency" = None ->
  Forall (fun g => label_name g <> "Currency") (groups (group_by self)) ->
  exists e, expose_metrics W self a result st = (Raise e, st).
Proof.
  intros Hen Hmen H0 Hf0 H1 Hf1 Hlen Hpos Hlt Hc Ha Hg.
  unfold expose_metrics, bind, lift.
  rewrite (index_Some _ _ _ H0), Hf0, (index_Some _ _ _ H1), Hf1, Hen. simpl.
  destruct (row_group_key_values_total W result (groups (group_by self)) 0 ∅) as [gkv ->];
    [simpl; lia|].
  rewrite (merge_or_set_minor W self a gkv result cost costUsd st Hmen Hlt). simpl.
  apply set_merged_rejected; assumption.
Qed.

(** ** Failures inside [fetch] *)

Section FetchFailures.

Variable W : world.
Variable self : MetricExporter.

Lemma fetch_rows_app (a : gmap string string) (sd : datetime) (l1 l2 : list (list value))
    (st : state) :
  fetch_rows W self a sd (l1 ++ l2) st
  = bind (fetch_rows W self a sd l1) (fun _ => fetch_rows W self a sd l2) st.
Proof.
  revert st. induction l1 as [|r l1 IH]; intros st; [reflexivity|].
  simpl. unfold bind.
  destruct (fetch_row W self a sd r st) as [[[]|e] st1]; [|reflexivity].
  rewrite IH. reflexivity.
Qed.

(** When [init_azure_client] fails. *)
Lemma init_azure_client_fails (tenant : string) :
  secrets self !! tenant = None \/
  (exists sec, secrets self !! tenant = Some sec /\
               (sec !! "client_id" = None \/ sec !! "client_secret" = None)) ->
  exists k, init_azure_client self tenant = Raise (KeyError k).
Proof.
  unfold init_azure_client, getitem.
  intros [-> | [sec [-> [H | H]]]].
  - exists tenant. reflexivity.
  - rewrite H. exists "client_id". reflexivity.
  - destruct (sec !! "client_id"); rewrite ?H; eexists; reflexivity.
Qed.

(** X4: the secret of a tenant is looked up before the [try] of [fetch]:
    when the tenant has no secret, or its secret lacks [client_id] or
    [client_secret], the [KeyError] leaves [fetch] right after the tenant
    was printed; no query is sent and the remaining accounts are not
    processed. *)
Theorem missing_secret_aborts_fetch (a : gmap string string)
    (rest : list (gmap string string)) (tenant : string) (st : state) :
  a !! "TenantId" = Some tenant ->
  secrets self !! tenant = None \/
  (exists sec, secrets self !! tenant = Some sec /\
               (sec !! "client_id" = None \/ sec !! "client_secret" = None)) ->
  exists k,
    fetch_targets W self (a :: rest) st = (Raise (KeyError k), emit (EPrint tenant) st).
Proof.
  intros Ht Hs. destruct (init_azure_client_fails tenant Hs) as [k Hk].
  exists k. simpl. unfold bind at 1.
  unfold fetch_account, fetch_tenant, bind, lift, getitem, modify.
  rewrite Ht, Hk. reflexivity.
Qed.

(** X5: only an [HttpResponseError] is caught.  When the query raises
    anything else, the exception leaves [fetch]: nothing is logged, nothing
    is written and the remaining accounts are not processed. *)
Theorem other_query_exception_aborts_fetch (a : gmap string string)
    (rest : list (gmap string string)) (st : state)
    (tenant subscription : string) (client : AzureClient) (start_date : datetime) (e : exn) :
  a !! "TenantId" = Some tenant ->
  a !! "Subscription" = Some subscription ->
  init_azure_client self tenant = Return client ->
  minus_one_day (today W (trace st ++ [EPrint tenant])) = Return start_date ->
  usage W (trace st ++ [EPrint tenant]) client ("/subscriptions/" ++ subscription)%string
    (query_definition (group_by self) start_date (today W (trace st ++ [EPrint tenant])))
  = UsageRaises e ->
  fetch_targets W self (a :: rest) st
  = (Raise e,
     emit (EQuery client ("/subscriptions/" ++ subscription)%string
             (query_definition (group_by self) start_date
                (today W (trace st ++ [EPrint tenant]))))
       (emit (EPrint tenant) st)).
Proof.
  intros Ht Hs Hc Hd Hu. simpl. unfold bind at 1.
  unfold fetch_account, fetch_tenant, query_azure_cost_explorer.
  unfold bind, lift, getitem, modify, get_trace, ret. rewrite Ht, Hc. simpl.
  rewrite Hd, Hs, Hu. reflexivity.
Qed.

(** X6: a target without [TenantId] ends [fetch] with a [KeyError] before
    anything is printed; a target without [Subscription] ends it after the
    print, before any query is sent. *)
Theorem target_without_identity_aborts_fetch (a : gmap string string)
    (rest : list (gmap string string)) (st : state) :
  (a !! "TenantId" = None ->
   fetch_targets W self (a :: rest) st = (Raise (KeyError "TenantId"), st)) /\
  (forall tenant client start_date,
     a !! "TenantId" = Some tenant ->
     init_azure_client self tenant = Return client ->
     minus_one_day (today W (trace st ++ [EPrint tenant])) = Return start_date ->
     a !! "Subscription" = None ->
     fetch_targets W self (a :: rest) st
     = (Raise (KeyError "Subscription"), emit (EPrint tenant) st)).
Proof.
  split.
  - intros Ht. simpl. unfold bind at 1.
    unfold fetch_account, bind, lift, getitem. rewrite Ht. reflexivity.
  - intros tenant client start_date Ht Hc Hd Hs. simpl. unfold bind at 1.
    unfold fetch_account, fetch_tenant.
    unfold bind, lift, getitem, modify, get_trace. rewrite Ht, Hc. simpl.
    rewrite Hd, Hs. reflexivity.
Qed.

(** X7: a row with fewer than three fields has no date field to compare:
    it raises an [IndexError] that ends the pass; the rows before it stay
    written and the rows after it are not processed. *)
Theorem short_row_raises_IndexError (a : gmap string string) (start_date : datetime)
    (pre post : list (list value)) (result : list value) (st st1 : state) :
  (length result < 3)%nat ->
  fetch_rows W self a start_date pre st = (Return tt, st1) ->
  fetch_rows W self a start_date (pre ++ result :: post) st = (Raise IndexError, st1).
Proof.
  intros Hlen Hpre. rewrite fetch_rows_app. unfold bind at 1. rewrite Hpre.
  simpl. unfold bind at 1. unfold fetch_row, bind, lift, index.
  rewrite (lookup_ge_None_2 result 2) by lia. reflexivity.
Qed.

(** X8: the two costs are converted before anything else is done with an
    accepted row: a cost that is [None] raises a [TypeError], a string that
    [float] rejects a [ValueError], and nothing has been written. *)
Theorem cost_that_is_no_number_raises (a : gmap string string) (result : list value)
    (c0 c1 : value) (st : state) :
  result !! 0%nat = Some c0 ->
  result !! 1%nat = Some c1 ->
  (c0 = VNone \/ (exists cost, py_float W c0 = Return cost) /\ c1 = VNone ->
   expose_metrics W self a result st = (Raise TypeError, st)) /\
  (forall s, float_of_str W s = None ->
     c0 = VStr s \/ (exists cost, py_float W c0 = Return cost) /\ c1 = VStr s ->
     expose_metrics W self a result st = (Raise ValueError, st)).
Proof.
  intros H0 H1. split.
  - intros [-> | [[cost Hc] ->]]; unfold expose_metrics, bind, lift;
      rewrite (index_Some _ _ _ H0); simpl; [reflexivity|].
    rewrite Hc, (index_Some _ _ _ H1). reflexivity.
  - intros s Hs [-> | [[cost Hc] ->]]; unfold expose_metrics, bind, lift;
      rewrite (index_Some _ _ _ H0); simpl.
    + rewrite Hs. reflexivity.
    + rewrite Hc, (index_Some _ _ _ H1). simpl. rewrite Hs. reflexivity.
Qed.

End FetchFailures.

(** ** Invariants of the gauges *)

Lemma preserves_unchanged {A} (I : state -> Prop) (c : M A) :
  (forall st, snd (c st) = st) -> preserves I c.
Proof. intros H st Hst. rewrite H. exact Hst. Qed.

Lemma preserves_bind {A B} (I : state -> Prop) (c : M A) (k : A -> M B) :
  preserves I c -> (forall a, preserves I (k a)) -> preserves I (bind c k).
Proof.
  intros Hc Hk st Hst. unfold bind. specialize (Hc st Hst).
  destruct (c st) as [[a|e] st1]; simpl in Hc; [apply Hk|]; exact Hc.
Qed.

(** After a pure step, only its result matters. *)
Lemma preserves_bind_lift {A B} (I : state -> Prop) (r : res A) (k : A -> M B) :
  (forall a, r = Return a -> preserves I (k a)) -> preserves I (bind (lift r) k).
Proof.
  intros Hk st Hst. unfold bind, lift.
  destruct r as [a|e]; [apply (Hk a eq_refl); exact Hst | exact Hst].
Qed.

Lemma kwargs_subseteq (a b kw : gmap string string) :
  kwargs a b = Return kw -> a ⊆ kw /\ b ⊆ kw.
Proof.
  unfold kwargs. case_bool_decide as Hd; [|discriminate].
  intros H. injection H as <-. split.
  - apply map_union_subseteq_l.
  - apply map_union_subseteq_r. exact Hd.
Qed.

(** The keyword arguments the program hands to a gauge hold the labels of
    the account and [ChargeType=ActualCost]. *)
Lemma row_kwargs_account (W : world) (a gkv kw : gmap string string) (result : list value) :
  row_kwargs W a gkv result = Return kw ->
  kw !! "ChargeType" = Some "ActualCost" /\ a ⊆ kw.
Proof.
  unfold row_kwargs. destruct (kwargs a gkv) as [kw0|e] eqn:E0; [|discriminate].
  destruct (index result 3) as [cur|e]; [|discriminate].
  intros H. apply kwargs_subseteq in H as [H0 H1]. apply kwargs_subseteq in E0 as [Ha _].
  split.
  - apply (lookup_weaken _ _ _ _ (lookup_insert_eq _ _ _) H1).
  - etransitivity; eassumption.
Qed.

Lemma merged_kwargs_account (a gkv kw : gmap string string) :
  merged_kwargs a gkv = Return kw ->
  kw !! "ChargeType" = Some "ActualCost" /\ a ⊆ kw.
Proof.
  unfold merged_kwargs. destruct (kwargs a gkv) as [kw0|e] eqn:E0; [|discriminate].
  intros H. apply kwargs_subseteq in H as [H0 H1]. apply kwargs_subseteq in E0 as [Ha _].
  split.
  - apply (lookup_weaken _ _ _ _ (lookup_singleton_eq _ _) H1).
  - etransitivity; eassumption.
Qed.

Section Invariants.

Variable W : world.
Variable self : MetricExporter.
Variable known : list (gmap string string).

Lemma reports_emit (e : event) : preserves (reports_accounts known) (modify (emit e)).
Proof. intros st H g. specialize (H g). destruct g; exact H. Qed.

Lemma reports_clear (g : gauge_id) : preserves (reports_accounts known) (clear g).
Proof.
  intros st H g' child. unfold clear, modify. specialize (H g' child).
  destruct g, g'; simpl in *; first [ exact H | intros [v Hv]; rewrite lookup_empty in Hv;
                                                 discriminate ].
Qed.

Lemma reports_labels_set (g : gauge_id) (a kw : gmap string string) (v : Q) :
  a ∈ known ->
  kw !! "ChargeType" = Some "ActualCost" /\ a ⊆ kw ->
  preserves (reports_accounts known) (labels_set g kw v).
Proof.
  intros Ha [Hct Hsub] st H. unfold labels_set, Gauge_labels.
  case_bool_decide as Hd; [|exact H]. simpl.
  intros g' child. specialize (H g' child).
  destruct g, g'; simpl in *;
    first [ exact H
          | intros Hc; destruct (decide (kw = child)) as [<-|Hne];
            [ split; [exact Hct | exists a; split; assumption]
            | rewrite lookup_insert_ne in Hc by exact Hne; apply H; exact Hc ] ].
Qed.

Lemma reports_expose_metrics (a : gmap string string) (r : list value) :
  a ∈ known -> preserves (reports_accounts known) (expose_metrics W self a r).
Proof.
  intros Ha. unfold expose_metrics.
  repeat (apply preserves_bind; [apply preserves_unchanged; reflexivity | intros ?]).
  destruct (negb _).
  - apply preserves_bind_lift. intros kw Hkw.
    apply preserves_bind;
      [apply (reports_labels_set _ a); [exact Ha | exact (row_kwargs_account _ _ _ _ _ Hkw)]|].
    intros _. apply preserves_bind_lift. intros kw' Hkw'.
    apply (reports_labels_set _ a); [exact Ha | exact (row_kwargs_account _ _ _ _ _ Hkw')].
  - apply preserves_bind; [apply preserves_unchanged; reflexivity | intros gkv].
    apply preserves_bind; [|intros merged].
    + unfold merge_or_set. destruct (merge_enabled _ && lt _ _).
      * apply preserves_unchanged. reflexivity.
      * apply preserves_bind_lift. intros kw Hkw.
        apply preserves_bind;
          [apply (reports_labels_set _ a);
           [exact Ha | exact (row_kwargs_account _ _ _ _ _ Hkw)]|].
        intros _. apply preserves_bind_lift. intros kw' Hkw'.
        apply preserves_bind;
          [apply (reports_labels_set _ a);
           [exact Ha | exact (row_kwargs_account _ _ _ _ _ Hkw')]|].
        intros _. apply preserves_unchanged. reflexivity.
    + unfold set_merged. destruct (lt 0 _); [|apply preserves_unchanged; reflexivity].
      apply preserves_bind_lift. intros kw Hkw.
      apply preserves_bind;
        [apply (reports_labels_set _ a); [exact Ha | exact (merged_kwargs_account _ _ _ Hkw)]|].
      intros _. apply preserves_bind_lift. intros kw' Hkw'.
      apply (reports_labels_set _ a); [exact Ha | exact (merged_kwargs_account _ _ _ Hkw')].
Qed.

Lemma reports_fetch_rows (a : gmap string string) (sd : datetime)
    (rows : list (list value)) :
  a ∈ known -> preserves (reports_accounts known) (fetch_rows W self a sd rows).
Proof.
  intros Ha. induction rows as [|r rows IH]; simpl.
  - apply preserves_unchanged. reflexivity.
  - apply preserves_bind; [|intros _; exact IH].
    unfold fetch_row.
    apply preserves_bind; [apply preserves_unchanged; reflexivity | intros d].
    destruct (ne_int d _);
      [apply preserves_unchanged; reflexivity | apply reports_expose_metrics; exact Ha].
Qed.

Lemma reports_fetch_targets (accounts : list (gmap string string)) :
  (forall a, a ∈ accounts -> a ∈ known) ->
  preserves (reports_accounts known) (fetch_targets W self accounts).
Proof.
  induction accounts as [|a accounts IH]; intros Hin; simpl.
  - apply preserves_unchanged. reflexivity.
  - apply preserves_bind;
      [|intros _; apply IH; intros b Hb; apply Hin; apply list_elem_of_further; exact Hb].
    assert (Ha : a ∈ known) by (apply Hin; apply list_elem_of_here).
    unfold fetch_account.
    apply preserves_bind; [apply preserves_unchanged; reflexivity | intros tenant].
    apply preserves_bind; [apply reports_emit | intros _].
    unfold fetch_tenant, query_azure_cost_explorer.
    repeat (first [ apply preserves_bind; [|intros ?]
                  | apply preserves_unchanged; reflexivity
                  | apply reports_emit ]).
    match goal with
    | |- preserves _ (match ?o with _ => _ end) => destruct o as [[rows|]|reason|e]
    end.
    + apply reports_fetch_rows. exact Ha.
    + apply preserves_unchanged. reflexivity.
    + apply reports_emit.
    + apply preserves_unchanged. reflexivity.
Qed.

Lemma reports_tick :
  (forall a, a ∈ targets self -> a ∈ known) -> preserves (reports_accounts known) (tick W self).
Proof.
  intros Hin. unfold tick.
  apply preserves_bind; [apply reports_clear | intros _].
  apply preserves_bind; [apply reports_clear | intros _].
  apply preserves_bind; [apply reports_fetch_targets; exact Hin | intros _].
  unfold sleep. destruct (_ <? 0)%Z;
    [apply preserves_unchanged; reflexivity | apply reports_emit].
Qed.

Lemma reports_run_metrics_loop (n : nat) :
  (forall a, a ∈ targets self -> a ∈ known) ->
  preserves (reports_accounts known) (run_metrics_loop W self n).
Proof.
  intros Hin. induction n as [|n IH]; simpl.
  - apply preserves_unchanged. reflexivity.
  - apply preserves_bind; [apply reports_tick; exact Hin | intros _; exact IH].
Qed.

End Invariants.

(** X9: the gauges only ever hold observations of configured targets.
    From the state the constructor leaves, after any number of iterations
    of the loop and however they end, every sample of either gauge carries
    all the labels of one of the targets of the configuration and is
    labelled [ChargeType=ActualCost], the one type of cost the exporter
    reports. *)
Theorem every_sample_reports_a_configured_target (W : world) (self : MetricExporter)
    (st0 : state) (n : nat) (g : gauge_id) (child : gmap string string) (v : Q) :
  init self = Return st0 ->
  samples (get_gauge g (snd (run_metrics_loop W self n st0))) !! child = Some v ->
  child !! "ChargeType" = Some "ActualCost" /\
  exists a, a ∈ targets self /\ a ⊆ child.
Proof.
  unfold init. destruct (init_labels self) as [L|e]; [|discriminate].
  intros H Hv. injection H as <-.
  apply (reports_run_metrics_loop W self (targets self) n (fun a Ha => Ha)
           {| azure_daily_cost := {| labelnames := L; samples := ∅ |};
              azure_daily_cost_usd := {| labelnames := L; samples := ∅ |};
              trace := [] |}) with (g := g).
  - intros g' child' [v' Hv']. destruct g'; simpl in Hv'; rewrite lookup_empty in Hv';
      discriminate.
  - exists v. exact Hv.
Qed.

(** ** What [fetch] does to the gauges and to the outside *)

Lemma replay_not_clear_keeps (g : gauge_id) (t : list event) :
  Forall not_clear t ->
  forall G child,
    is_Some (samples G !! child) -> is_Some (samples (replay g t G) !! child).
Proof.
  induction 1 as [|e t He _ IH]; intros G child Hc; [exact Hc|].
  unfold replay. simpl. apply IH.
  destruct e as [g'|g' l v| | | |]; simpl in *; try exact Hc; [contradiction|].
  destruct (same_gauge g g'); [|exact Hc]. simpl.
  destruct (decide (l = child)) as [->|Hne].
  - rewrite lookup_insert_eq. eexists. reflexivity.
  - rewrite lookup_insert_ne by exact Hne. exact Hc.
Qed.

(** X10: [fetch] never removes a sample: whatever label set has a value in
    a gauge before [fetch] still has one after it, however the fetch ends.
    Only the clearing at the start of a tick empties a gauge. *)
Theorem fetch_never_removes_a_sample (W : world) (self : MetricExporter) (st : state)
    (g : gauge_id) (child : gmap string string) :
  is_Some (samples (get_gauge g st) !! child) ->
  is_Some (samples (get_gauge g (snd (fetch W self st))) !! child).
Proof.
  intros H. unfold fetch.
  destruct (emits_fetch_targets W self (targets self) st) as [t [_ [F G]]].
  rewrite G. apply replay_not_clear_keeps; assumption.
Qed.

Section CompletedFetch.

Variable W : world.
Variable self : MetricExporter.

Lemma after_print_is_set (e : event) : is_set e -> after_print e.
Proof. destruct e; simpl; tauto. Qed.

Lemma started_after_print (t : list event) : Forall after_print t -> started t = [].
Proof.
  induction 1 as [|e t He _ IH]; [reflexivity|].
  destruct e; simpl in *; try contradiction; exact IH.
Qed.

Lemma emits_after_print_fetch_tenant (a : gmap string string) (tenant : string) :
  emits after_print (fetch_tenant W self a tenant).
Proof.
  unfold fetch_tenant, query_azure_cost_explorer.
  repeat (first [ apply emits_bind; [|intros ?] | apply emits_lift | apply emits_ret
                | apply emits_get_trace | apply emits_emit; [exact I | reflexivity] ]).
  match goal with |- emits _ (match ?o with _ => _ end) => destruct o as [[rows|]|reason|e] end.
  - eapply emits_weaken; [exact after_print_is_set | apply emits_fetch_rows].
  - apply emits_raise.
  - apply emits_emit; [exact I | reflexivity].
  - apply emits_raise.
Qed.

(** [fetch_tenant] returns only after it has sent its query. *)
Lemma fetch_tenant_returns (a : gmap string string) (tenant : string) (st : state) :
  fst (fetch_tenant W self a tenant st) = Return tt ->
  exists client start_date subscription,
    init_azure_client self tenant = Return client /\
    minus_one_day (today W (trace st)) = Return start_date /\
    a !! "Subscription" = Some subscription.
Proof.
  unfold fetch_tenant, bind at 1, lift.
  destruct (init_azure_client self tenant) as [client|e]; [|discriminate].
  unfold bind at 1, get_trace. unfold bind at 1.
  destruct (minus_one_day (today W (trace st))) as [start_date|e]; [|discriminate].
  unfold bind at 1, getitem.
  destruct (a !! "Subscription") as [subscription|]; [|discriminate].
  intros _. exists client, start_date, subscription. repeat split; reflexivity.
Qed.

Lemma fetch_account_tenant (a : gmap string string) (tenant : string) (st : state) :
  a !! "TenantId" = Some tenant ->
  fetch_account W self a st = fetch_tenant W self a tenant (emit (EPrint tenant) st).
Proof.
  intros Ht. unfold fetch_account, bind, lift, getitem, modify. rewrite Ht. reflexivity.
Qed.

(** An account that [fetch] gets through was printed once and queried once. *)
Lemma fetch_account_returns (a : gmap string string) (st : state) :
  fst (fetch_account W self a st) = Return tt ->
  exists tenant t,
    a !! "TenantId" = Some tenant /\
    trace (snd (fetch_account W self a st)) = trace st ++ t /\
    started t = [tenant] /\ length (queries t) = 1%nat.
Proof.
  destruct (a !! "TenantId") as [tenant|] eqn:Ht.
  2: { unfold fetch_account, bind, lift, getitem. rewrite Ht. discriminate. }
  rewrite (fetch_account_tenant a tenant st Ht). intros Hret.
  destruct (fetch_tenant_returns a tenant _ Hret) as (client & sd & sub & Hc & Hd & Hs).
  destruct (emits_after_print_fetch_tenant a tenant (emit (EPrint tenant) st))
    as [t [E [F _]]].
  destruct (fetch_tenant_queries W self a tenant (emit (EPrint tenant) st)) as [t' [E' Hq]].
  rewrite Hc, Hd, Hs in Hq.
  assert (t' = t) as -> by (rewrite E in E'; exact (app_inv_head _ _ _ (eq_sym E'))).
  exists tenant, (EPrint tenant :: t). split; [reflexivity|].
  split; [rewrite E; simpl; rewrite <- app_assoc; reflexivity|].
  split; [simpl; rewrite (started_after_print t F); reflexivity|].
  simpl. rewrite Hq. reflexivity.
Qed.

End CompletedFetch.

(** X11: a [fetch] that returns has gone through every target once, in the
    order of the configuration: the tenants printed are those of the
    targets, in order, and as many queries were sent as there are targets
    (one for each, none repeated). *)
Theorem completed_fetch_queries_every_target_once (W : world) (self : MetricExporter)
    (accounts : list (gmap string string)) (st : state) :
  fst (fetch_targets W self accounts st) = Return tt ->
  exists t,
    trace (snd (fetch_targets W self accounts st)) = trace st ++ t /\
    Some <$> started t = (fun a : gmap string string => a !! "TenantId") <$> accounts /\
    length (queries t) = length accounts.
Proof.
  revert st. induction accounts as [|a accounts IH]; intros st.
  - intros _. exists []. simpl. rewrite app_nil_r. repeat split; reflexivity.
  - simpl. unfold bind.
    destruct (fetch_account W self a st) as [[[]|e] st1] eqn:Ea; [|discriminate].
    intros Hret.
    destruct (fetch_account_returns W self a st) as (tenant & t1 & Ht & E1 & S1 & Q1);
      [rewrite Ea; reflexivity|].
    rewrite Ea in E1. simpl in E1.
    destruct (IH st1 Hret) as (t2 & E2 & S2 & Q2).
    exists (t1 ++ t2). rewrite E2, E1, <- app_assoc.
    split; [reflexivity|].
    split; [|rewrite queries_app, length_app, Q1, Q2; reflexivity].
    rewrite started_app, S1, fmap_app, S2. simpl. rewrite Ht. reflexivity.
Qed.

(** ** The calendar *)

Lemma days_before_year_next (y : Z) :
  days_before_year (y + 1) = (days_before_year y + if is_leap y then 366 else 365)%Z.
Proof.
  unfold days_before_year, is_leap.
  replace (y + 1 - 1)%Z with y by lia.
  destruct (y mod 4 =? 0)%Z eqn:E4, (y mod 100 =? 0)%Z eqn:E100, (y mod 400 =? 0)%Z eqn:E400;
    simpl;
    rewrite ?Z.eqb_eq, ?Z.eqb_neq in *;
    Z.div_mod_to_equations; lia.
Qed.

Lemma days_before_month_next (y m : Z) :
  (1 <= m)%Z ->
  days_before_month y (m + 1) = (days_before_month y m + days_in_month y m)%Z.
Proof.
  intros Hm. unfold days_before_month.
  replace (m + 1 - 1)%Z with (Z.succ (m - 1)) by lia.
  rewrite Z2Nat.inj_succ by lia. simpl days_before_month_aux.
  rewrite <- Z2Nat.inj_succ by lia. rewrite Z2Nat.id by lia.
  replace (Z.succ (m - 1)) with m by lia. reflexivity.
Qed.

Lemma days_before_month_12 (y : Z) :
  (days_before_month y 12 + 31 = if is_leap y then 366 else 365)%Z.
Proof.
  unfold days_before_month. simpl. unfold days_in_month. simpl.
  destruct (is_leap y); reflexivity.
Qed.

(** [minus_one_day] is the day before: the ordinal goes down by one and the
    date stays a date of the calendar. *)
Lemma minus_one_day_ordinal (d y : datetime) :
  valid_date d ->
  minus_one_day d = Return y ->
  toordinal y = (toordinal d - 1)%Z /\ valid_date y.
Proof.
  intros (Hy & Hm & Hd). unfold minus_one_day.
  destruct (1 <? day d)%Z eqn:E1; [|destruct (1 <? month d)%Z eqn:E2;
                                     [|destruct (1 <? year d)%Z eqn:E3]];
    intros H; try discriminate; injection H as <-;
    rewrite ?Z.ltb_lt, ?Z.ltb_ge in *; unfold toordinal, valid_date; simpl.
  - split; lia.
  - pose proof (days_before_month_next (year d) (month d - 1) ltac:(lia)) as Hn.
    replace (month d - 1 + 1)%Z with (month d) in Hn by lia.
    split; [lia|].
    assert (28 <= days_in_month (year d) (month d - 1))%Z.
    { unfold days_in_month. repeat destruct (_ =? _)%Z; simpl; try lia.
      destruct (is_leap _); lia. }
    lia.
  - assert (month d = 1 /\ day d = 1)%Z as [Em Ed] by lia.
    rewrite Em, Ed.
    pose proof (days_before_year_next (year d - 1)) as Hn.
    replace (year d - 1 + 1)%Z with (year d) in Hn by lia.
    pose proof (days_before_month_12 (year d - 1)) as H12.
    change (days_before_month (year d) 1) with 0%Z.
    split; [|unfold days_in_month; simpl; lia].
    destruct (is_leap (year d - 1)); lia.
Qed.

(** X12: the window of a query spans exactly one calendar day, whatever
    the date -- the first of a month, of a year, the day after a leap day --
    and whatever the time of day: its end is midnight UTC of today's date,
    its start midnight UTC of the date one day earlier in the calendar.
    Only on 0001-01-01 is there no day before, and the subtraction raises. *)
Theorem query_window_spans_one_day (gb : GroupBy) (today_ : datetime) :
  valid_date today_ ->
  (forall start_date,
     minus_one_day today_ = Return start_date ->
     let p := time_period (query_definition gb start_date today_) in
     to p = utc_midnight (year today_) (month today_) (day today_) /\
     valid_date (from_property p) /\
     toordinal (to p) = (toordinal (from_property p) + 1)%Z /\
     hour (from_property p) = 0%Z /\ minute (from_property p) = 0%Z /\
     second (from_property p) = 0%Z /\ microsecond (from_property p) = 0%Z /\
     tz_utc (from_property p) = true) /\
  (minus_one_day today_ = Raise OverflowError <->
   year today_ = 1%Z /\ month today_ = 1%Z /\ day today_ = 1%Z).
Proof.
  intros Hv. split.
  - intros start_date Hd p.
    destruct (minus_one_day_ordinal today_ start_date Hv Hd) as [Ho Hvs].
    subst p. simpl. split; [reflexivity|].
    split; [exact Hvs|]. split; [|repeat split; reflexivity].
    unfold toordinal in *. simpl. lia.
  - destruct Hv as (Hy & Hm & Hd). unfold minus_one_day.
    destruct (1 <? day today_)%Z eqn:E1; [|destruct (1 <? month today_)%Z eqn:E2;
                                           [|destruct (1 <? year today_)%Z eqn:E3]];
      rewrite ?Z.ltb_lt, ?Z.ltb_ge in *; split; try discriminate; try lia.
    reflexivity.
Qed.

(** ** Targets and rows in the ungrouped case *)

(** X13: the gauges are declared with the label keys of the first target
    only.  In the ungrouped case, a target whose keys, with [ChargeType]
    and [Currency], are not the label names of the gauge cannot be
    reported: each of its accepted rows raises -- a [ValueError] from the
    gauge when the target has no [ChargeType] or [Currency] key of its own
    -- and nothing is written. *)
Theorem target_with_other_keys_is_rejected (W : world) (self : MetricExporter)
    (a : gmap string string) (c0 c1 d cur : value) (tl : list value)
    (cost costUsd : Q) (st : state) :
  enabled (group_by self) = false ->
  py_float W c0 = Return cost ->
  py_float W c1 = Return costUsd ->
  labelnames (azure_daily_cost st) <> dom a ∪ {["ChargeType"; "Currency"]} ->
  (exists e, expose_metrics W self a (c0 :: c1 :: d :: cur :: tl) st = (Raise e, st)) /\
  (a !! "ChargeType" = None -> a !! "Currency" = None ->
   expose_metrics W self a (c0 :: c1 :: d :: cur :: tl) st = (Raise ValueError, st)).
Proof.
  intros Hen Hf0 Hf1 Hne.
  assert (H : forall kw,
             row_kwargs W a ∅ (c0 :: c1 :: d :: cur :: tl) = Return kw ->
             expose_metrics W self a (c0 :: c1 :: d :: cur :: tl) st = (Raise ValueError, st)).
  { intros kw Hkw. unfold expose_metrics, bind, lift, index. simpl.
    rewrite Hf0, Hf1, Hen. simpl. rewrite Hkw.
    unfold labels_set, Gauge_labels. simpl.
    rewrite bool_decide_eq_false_2; [reflexivity|].
    rewrite (row_kwargs_dom W a ∅ kw _ Hkw), dom_empty_L.
    intros E. apply Hne. rewrite <- E. set_solver. }
  split.
  - destruct (row_kwargs W a ∅ (c0 :: c1 :: d :: cur :: tl)) as [kw|e] eqn:Hkw.
    + exists ValueError. apply (H kw). reflexivity.
    + exists e. unfold expose_metrics, bind, lift, index. simpl.
      rewrite Hf0, Hf1, Hen. simpl. rewrite Hkw. reflexivity.
  - intros Hct Hcur. apply (H (ungrouped_labels W a cur)).
    apply row_kwargs_ungrouped; assumption.
Qed.

(** X14: rows are not added up.  In the ungrouped case two accepted rows
    of one account with the same currency have the same labels, and the
    second replaces the first: both are written, and each gauge ends with
    the value of the second row under these labels, as if the first row had
    not been there. *)
Theorem later_row_replaces_earlier_row_of_same_currency (W : world) (self : MetricExporter)
    (a : gmap string string) (start_date : datetime)
    (c0 c1 d cur c0' c1' d' cur' : value) (tl tl' : list value)
    (cost costUsd cost' costUsd' : Q) (st : state) :
  enabled (group_by self) = false ->
  a !! "ChargeType" = None ->
  a !! "Currency" = None ->
  labelnames (azure_daily_cost st) = dom a ∪ {["ChargeType"; "Currency"]} ->
  labelnames (azure_daily_cost_usd st) = dom a ∪ {["ChargeType"; "Currency"]} ->
  py_float W c0 = Return cost -> py_float W c1 = Return costUsd ->
  py_float W c0' = Return cost' -> py_float W c1' = Return costUsd' ->
  ne_int d (yyyymmdd start_date) = false ->
  ne_int d' (yyyymmdd start_date) = false ->
  py_str W cur = py_str W cur' ->
  let labels := ungrouped_labels W a cur in
  let st' := written (written st labels cost costUsd) labels cost' costUsd' in
  fetch_rows W self a start_date [c0 :: c1 :: d :: cur :: tl; c0' :: c1' :: d' :: cur' :: tl'] st
  = (Return tt, st') /\
  samples (azure_daily_cost st') = <[labels := cost']> (samples (azure_daily_cost st)) /\
  samples (azure_daily_cost_usd st')
  = <[labels := costUsd']> (samples (azure_daily_cost_usd st)).
Proof.
  intros Hen Hct Hcur Hn Hu Hf0 Hf1 Hf0' Hf1' Hd Hd' Hs labels st'.
  split.
  - simpl. unfold bind. rewrite !fetch_row_four, Hd.
    rewrite (expose_metrics_ungrouped W self a Hen Hct Hcur c0 c1 d cur tl cost costUsd st
               Hf0 Hf1 Hn Hu).
    rewrite fetch_row_four, Hd'.
    match goal with |- context [expose_metrics _ _ _ _ ?s] => set (st1 := s) end.
    rewrite (expose_metrics_ungrouped W self a Hen Hct Hcur c0' c1' d' cur' tl' cost' costUsd'
               st1 Hf0' Hf1' Hn Hu).
    subst st' labels st1. unfold written, ungrouped_labels. rewrite <- Hs. reflexivity.
  - subst st'. simpl. split; apply insert_insert_eq.
Qed.

(** ** Rows that are too short, answers without rows, the interval *)

Lemma row_group_key_values_short (W : world) (result : list value) (gs : list Group) :
  forall i acc,
    gs <> [] ->
    (length result < i + 3 + length gs)%nat ->
    row_group_key_values W gs i result acc = Raise IndexError.
Proof.
  induction gs as [|g gs IH]; intros i acc Hne Hlen; [congruence|].
  simpl in *. unfold index.
  destruct (result !! (i + 3)%nat) as [v|] eqn:Hv; [|reflexivity].
  apply lookup_lt_Some in Hv.
  destruct gs as [|g' gs']; [simpl in Hlen; lia|].
  apply IH; [discriminate | simpl in *; lia].
Qed.

(** X15: an accepted row that is too short raises an [IndexError] before
    anything is written: in the ungrouped case a row without field 3, the
    currency; in the grouped case a row with fewer than [3 + n] fields for
    [n > 0] groups. *)
Theorem row_too_short_raises_IndexError (W : world) (self : MetricExporter)
    (a : gmap string string) (result : list value) (c0 c1 : value)
    (cost costUsd : Q) (st : state) :
  result !! 0%nat = Some c0 -> py_float W c0 = Return cost ->
  result !! 1%nat = Some c1 -> py_float W c1 = Return costUsd ->
  (enabled (group_by self) = false -> (length result < 4)%nat ->
   expose_metrics W self a result st = (Raise IndexError, st)) /\
  (enabled (group_by self) = true -> groups (group_by self) <> [] ->
   (length result < 3 + length (groups (group_by self)))%nat ->
   expose_metrics W self a result st = (Raise IndexError, st)).
Proof.
  intros H0 Hf0 H1 Hf1. split.
  - intros Hen Hlen. unfold expose_metrics, bind, lift.
    rewrite (index_Some _ _ _ H0), Hf0, (index_Some _ _ _ H1), Hf1, Hen. simpl.
    unfold row_kwargs, kwargs at 1.
    rewrite bool_decide_eq_true_2 by apply map_disjoint_empty_r.
    unfold index. rewrite (lookup_ge_None_2 result 3) by lia. reflexivity.
  - intros Hen Hne Hlen. unfold expose_metrics, bind, lift.
    rewrite (index_Some _ _ _ H0), Hf0, (index_Some _ _ _ H1), Hf1, Hen. simpl.
    rewrite (row_group_key_values_short W result _ 0 ∅ Hne) by (simpl; lia).
    reflexivity.
Qed.

Lemma replay_leaves_gauges (g : gauge_id) (t : list event) (G : Gauge) :
  Forall leaves_gauges t -> replay g t G = G.
Proof.
  induction 1 as [|e t He _ IH]; [reflexivity|].
  unfold replay in *. simpl. destruct e; simpl in *; try contradiction; exact IH.
Qed.

Lemma leaves_gauges_not_clear (e : event) : leaves_gauges e -> not_clear e.
Proof. destruct e; simpl; tauto. Qed.

Section NoRows.

Variable W : world.
Variable self : MetricExporter.

Hypothesis no_rows : forall h c s q, brings_no_row (usage W h c s q).

Lemma emits_leaves_gauges_fetch_targets (accounts : list (gmap string string)) :
  emits leaves_gauges (fetch_targets W self accounts).
Proof.
  induction accounts as [|a accounts IH]; simpl.
  - apply emits_ret.
  - apply emits_bind; [|intros _; exact IH].
    unfold fetch_account.
    apply emits_bind; [apply emits_lift | intros tenant].
    apply emits_bind; [apply emits_emit; [exact I | reflexivity] | intros _].
    unfold fetch_tenant, query_azure_cost_explorer.
    apply emits_bind; [apply emits_lift | intros client].
    apply emits_bind; [apply emits_get_trace | intros h].
    apply emits_bind; [apply emits_lift | intros start_date].
    apply emits_bind; [apply emits_lift | intros subscription].
    intros st. unfold bind, get_trace, modify, ret.
    pose proof (no_rows (trace st) client ("/subscriptions/" ++ subscription)%string
                  (query_definition (group_by self) start_date (today W h))) as Hno.
    set (q := query_definition (group_by self) start_date (today W h)) in *.
    set (scope := ("/subscriptions/" ++ subscription)%string) in *.
    destruct (usage W (trace st) client scope q) as [[[|r rows]|]|reason|e];
      simpl in Hno; try contradiction.
    + exists [EQuery client scope q]. simpl.
      split; [reflexivity|]. split; [repeat constructor|]. intros []; reflexivity.
    + exists [EQuery client scope q]. simpl.
      split; [reflexivity|]. split; [repeat constructor|]. intros []; reflexivity.
    + exists [EQuery client scope q; ELogError reason]. simpl.
      rewrite <- app_assoc.
      split; [reflexivity|]. split; [repeat constructor|]. intros []; reflexivity.
    + exists [EQuery client scope q]. simpl.
      split; [reflexivity|]. split; [repeat constructor|]. intros []; reflexivity.
Qed.

End NoRows.

(** X16: values do not outlive a tick.  When the billing API brings no row
    for any query of a tick -- it fails, or answers without rows -- both
    gauges are empty after the tick, whatever they held before and however
    the tick ends. *)
Theorem tick_without_rows_leaves_the_gauges_empty (W : world) (self : MetricExporter)
    (st : state) (g : gauge_id) :
  (forall h c s q, brings_no_row (usage W h c s q)) ->
  samples (get_gauge g (snd (tick W self st))) = ∅ /\
  labelnames (get_gauge g (snd (tick W self st))) = labelnames (get_gauge g st).
Proof.
  intros Hno.
  assert (He : emits leaves_gauges
                 (fetch W self ;;; sleep (polling_interval_seconds self))).
  { apply emits_bind; [apply emits_leaves_gauges_fetch_targets; exact Hno | intros _].
    unfold sleep.
    destruct (_ <? 0)%Z; [apply emits_raise | apply emits_emit; [exact I | reflexivity]]. }
  assert (Hg : get_gauge g (snd (tick W self st)) = Gauge_clear (get_gauge g st)).
  { unfold tick. unfold bind at 1, clear at 1, modify. unfold bind at 1, clear at 1, modify.
    match goal with |- context [bind _ _ ?s] => set (st0 := s) end.
    destruct (He st0) as [body [_ [F G]]].
    rewrite G, (replay_leaves_gauges g body _ F).
    subst st0. destruct g; reflexivity. }
  rewrite Hg. split; reflexivity.
Qed.

Lemma tick_after_clearing (W : world) (self : MetricExporter) (st : state) :
  tick W self st
  = (fetch W self ;;; sleep (polling_interval_seconds self))
      (snd ((clear Native ;;; clear Usd) st)).
Proof. reflexivity. Qed.

(** X17: [time.sleep] refuses a negative length.  With a negative polling
    interval no tick completes: the first iteration clears the gauges,
    fetches, and then raises, so the loop is over after one tick. *)
Theorem negative_interval_ends_the_loop_after_one_tick (W : world) (self : MetricExporter)
    (n : nat) (st : state) :
  (polling_interval_seconds self < 0)%Z ->
  (exists e, fst (tick W self st) = Raise e) /\
  run_metrics_loop W self (S n) st = tick W self st /\
  (fst (fetch W self (snd ((clear Native ;;; clear Usd) st))) = Return tt ->
   fst (tick W self st) = Raise ValueError).
Proof.
  intros Hneg. apply Z.ltb_lt in Hneg.
  rewrite !tick_after_clearing.
  set (st0 := snd ((clear Native ;;; clear Usd) st)).
  assert (Hs : forall x, sleep (polling_interval_seconds self) x = (Raise ValueError, x)).
  { intros x. unfold sleep. rewrite Hneg. reflexivity. }
  assert (Ht : exists e,
             fst ((fetch W self ;;; sleep (polling_interval_seconds self)) st0) = Raise e).
  { unfold bind. destruct (fetch W self st0) as [[[]|e] st1].
    - rewrite Hs. exists ValueError. reflexivity.
    - exists e. reflexivity. }
  split; [exact Ht|]. split.
  - destruct Ht as [e He]. simpl. unfold bind at 1. rewrite tick_after_clearing. fold st0.
    destruct ((fetch W self ;;; sleep (polling_interval_seconds self)) st0)
      as [[[]|e'] st1]; [discriminate | reflexivity].
  - unfold bind. destruct (fetch W self st0) as [[[]|e] st1].
    + intros _. rewrite Hs. reflexivity.
    + discriminate.
Qed.

(** ** The further properties on concrete inputs *)

Ltac by_decision :=
  match goal with
  | |- ~ ?P => apply (bool_decide_eq_false_1 P); vm_cast_no_check (@eq_refl bool false)
  | |- ?P => apply (bool_decide_eq_true_1 P); vm_cast_no_check (@eq_refl bool true)
  end.

Lemma grouped_row_is_written_once_witness :
  expose_metrics world_grouped exporter_grouped account row_vm
    (start world_grouped exporter_grouped)
  = (Return tt,
     written (start world_grouped exporter_grouped)
       (row_labels world_grouped account {["ServiceName" := "USD"]} (VStr "USD"))
       (inject_Z 5) (inject_Z 5)).
Proof.
  apply (grouped_row_is_written_once world_grouped exporter_grouped account
           {["ServiceName" := "USD"]} row_vm (VInt 5) (VInt 5) (VStr "USD")
           (inject_Z 5) (inject_Z 5) (start world_grouped exporter_grouped)
           eq_refl eq_refl eq_refl eq_refl eq_refl eq_refl
           ltac:(by_evaluation) (or_introl eq_refl)
           ltac:(by_decision) ltac:(by_evaluation) ltac:(by_evaluation)
           ltac:(by_evaluation) ltac:(by_evaluation)).
Defined.

Lemma group_label_is_field_k_plus_3_witness :
  row_labels world_grouped account {["ServiceName" := "USD"]} (VStr "USD") !! "ServiceName"
  = row_labels world_grouped account {["ServiceName" := "USD"]} (VStr "USD") !! "Currency".
Proof.
  apply (proj2 (group_label_is_field_k_plus_3 world_grouped exporter_grouped account
                  {["ServiceName" := "USD"]} row_vm (VStr "USD")
                  ltac:(by_decision) ltac:(by_evaluation) ltac:(by_decision)
                  ltac:(repeat constructor; discriminate) eq_refl)
           service_name [] eq_refl).
Defined.

Lemma positive_minor_row_raises_witness :
  exists e,
    expose_metrics world_minor exporter_merge account row_minor
      (start world_minor exporter_merge)
    = (Raise e, start world_minor exporter_merge).
Proof.
  apply (positive_minor_row_raises world_minor exporter_merge account row_minor
           (VInt 3) (VInt 3) (inject_Z 3) (inject_Z 3) (start world_minor exporter_merge)
           eq_refl eq_refl eq_refl eq_refl eq_refl eq_refl
           ltac:(vm_compute; lia) eq_refl eq_refl
           ltac:(by_decision) ltac:(by_evaluation)
           ltac:(repeat constructor; discriminate)).
Defined.

Lemma missing_secret_aborts_fetch_witness :
  exists k,
    fetch_targets world_ungrouped exporter_no_secret [account; account2]
      (start world_ungrouped exporter_no_secret)
    = (Raise (KeyError k), emit (EPrint "tenant-1") (start world_ungrouped exporter_no_secret)).
Proof.
  apply (missing_secret_aborts_fetch world_ungrouped exporter_no_secret account [account2]
           "tenant-1" (start world_ungrouped exporter_no_secret)
           eq_refl (or_introl eq_refl)).
Defined.

Lemma other_query_exception_aborts_fetch_witness :
  fetch_targets world_unreachable exporter_two_accounts [account; account2]
    (start world_unreachable exporter_two_accounts)
  = (Raise (OtherError "ServiceRequestError"),
     emit (EQuery client1 "/subscriptions/sub-1"
             (query_definition ungrouped yesterday (at_time 2024 1 16 10 30)))
       (emit (EPrint "tenant-1") (start world_unreachable exporter_two_accounts))).
Proof.
  apply (other_query_exception_aborts_fetch world_unreachable exporter_two_accounts account
           [account2] (start world_unreachable exporter_two_accounts)
           "tenant-1" "sub-1" client1 yesterday (OtherError "ServiceRequestError")
           eq_refl eq_refl eq_refl eq_refl eq_refl).
Defined.

Lemma target_without_identity_aborts_fetch_witness :
  fetch_targets world_ungrouped exporter_ungrouped [account_empty; account]
    (start world_ungrouped exporter_ungrouped)
  = (Raise (KeyError "TenantId"), start world_ungrouped exporter_ungrouped).
Proof.
  apply (proj1 (target_without_identity_aborts_fetch world_ungrouped exporter_ungrouped
                  account_empty [account] (start world_ungrouped exporter_ungrouped))
           eq_refl).
Defined.

Lemma short_row_raises_IndexError_witness :
  fetch_rows world_ungrouped exporter_ungrouped account yesterday
    ([] ++ row_short :: rows_ungrouped) (start world_ungrouped exporter_ungrouped)
  = (Raise IndexError, start world_ungrouped exporter_ungrouped).
Proof.
  apply (short_row_raises_IndexError world_ungrouped exporter_ungrouped account yesterday
           [] rows_ungrouped row_short (start world_ungrouped exporter_ungrouped)
           (start world_ungrouped exporter_ungrouped)
           ltac:(vm_compute; lia) eq_refl).
Defined.

Lemma cost_that_is_no_number_raises_witness :
  expose_metrics world_ungrouped exporter_ungrouped account row_null_cost
    (start world_ungrouped exporter_ungrouped)
  = (Raise TypeError, start world_ungrouped exporter_ungrouped).
Proof.
  apply (proj1 (cost_that_is_no_number_raises world_ungrouped exporter_ungrouped account
                  row_null_cost VNone (VInt 1) (start world_ungrouped exporter_ungrouped)
                  eq_refl eq_refl)
           (or_introl eq_refl)).
Defined.

(** After one tick on the scenario of the specification the native gauge
    holds the observation of the one account. *)
Lemma every_sample_reports_a_configured_target_witness :
  labels_usd !! "ChargeType" = Some "ActualCost" /\
  exists a, a ∈ targets exporter_ungrouped /\ a ⊆ labels_usd.
Proof.
  apply (every_sample_reports_a_configured_target world_ungrouped exporter_ungrouped
           (start world_ungrouped exporter_ungrouped) 1 Native labels_usd (21 # 2)
           ltac:(by_evaluation) ltac:(by_evaluation)).
Defined.

Lemma fetch_never_removes_a_sample_witness :
  is_Some
    (samples
       (get_gauge Native
          (snd (fetch world_down exporter_ungrouped
                  (written (start world_down exporter_ungrouped) labels_usd
                     (inject_Z 1) (inject_Z 1)))))
     !! labels_usd).
Proof.
  apply (fetch_never_removes_a_sample world_down exporter_ungrouped
           (written (start world_down exporter_ungrouped) labels_usd (inject_Z 1) (inject_Z 1))
           Native labels_usd).
  exists (inject_Z 1). by_evaluation.
Defined.

Lemma completed_fetch_queries_every_target_once_witness :
  exists t,
    trace (snd (fetch_targets world_ungrouped exporter_two_accounts [account; account2]
                  (start world_ungrouped exporter_two_accounts)))
    = trace (start world_ungrouped exporter_two_accounts) ++ t /\
    Some <$> started t
    = (fun a : gmap string string => a !! "TenantId") <$> [account; account2] /\
    length (queries t) = length [account; account2].
Proof.
  apply (completed_fetch_queries_every_target_once world_ungrouped exporter_two_accounts
           [account; account2] (start world_ungrouped exporter_two_accounts)
           ltac:(by_evaluation)).
Defined.

(** The day before 2024-03-01 is the leap day 2024-02-29. *)
Lemma query_window_spans_one_day_witness :
  from_property (time_period (query_definition ungrouped (at_time 2024 2 29 0 30)
                                (at_time 2024 3 1 0 30)))
  = utc_midnight 2024 2 29 /\
  toordinal (to (time_period (query_definition ungrouped (at_time 2024 2 29 0 30)
                                (at_time 2024 3 1 0 30))))
  = (toordinal (from_property (time_period (query_definition ungrouped
                                              (at_time 2024 2 29 0 30)
                                              (at_time 2024 3 1 0 30)))) + 1)%Z.
Proof.
  split; [reflexivity|].
  apply (proj1 (query_window_spans_one_day ungrouped (at_time 2024 3 1 0 30)
                  ltac:(vm_compute; repeat split; discriminate))
           (at_time 2024 2 29 0 30) eq_refl).
Defined.

Lemma target_with_other_keys_is_rejected_witness :
  expose_metrics world_ungrouped exporter_ungrouped account_named
    [VInt 1; VInt 1; VInt 20240115; VStr "USD"] (start world_ungrouped exporter_ungrouped)
  = (Raise ValueError, start world_ungrouped exporter_ungrouped).
Proof.
  apply (proj2 (target_with_other_keys_is_rejected world_ungrouped exporter_ungrouped
                  account_named (VInt 1) (VInt 1) (VInt 20240115) (VStr "USD") []
                  (inject_Z 1) (inject_Z 1) (start world_ungrouped exporter_ungrouped)
                  eq_refl eq_refl eq_refl ltac:(by_decision))
           ltac:(by_evaluation) ltac:(by_evaluation)).
Defined.

Lemma later_row_replaces_earlier_row_of_same_currency_witness :
  samples (azure_daily_cost
             (written (written (start world_ungrouped exporter_ungrouped)
                         (ungrouped_labels world_ungrouped account (VStr "USD"))
                         (21 # 2) (inject_Z 11))
                (ungrouped_labels world_ungrouped account (VStr "USD"))
                (inject_Z 7) (inject_Z 8)))
  = <[ungrouped_labels world_ungrouped account (VStr "USD") := inject_Z 7]>
      (samples (azure_daily_cost (start world_ungrouped exporter_ungrouped))).
Proof.
  apply (proj1 (proj2 (later_row_replaces_earlier_row_of_same_currency world_ungrouped
                         exporter_ungrouped account yesterday
                         (VFloat (21 # 2)) (VFloat 11) (VInt 20240115) (VStr "USD")
                         (VInt 7) (VInt 8) (VInt 20240115) (VStr "USD") [] []
                         (21 # 2) (inject_Z 11) (inject_Z 7) (inject_Z 8)
                         (start world_ungrouped exporter_ungrouped)
                         eq_refl ltac:(by_evaluation) ltac:(by_evaluation)
                         ltac:(by_evaluation) ltac:(by_evaluation)
                         eq_refl eq_refl eq_refl eq_refl eq_refl eq_refl eq_refl))).
Defined.

Lemma row_too_short_raises_IndexError_witness :
  expose_metrics world_ungrouped exporter_ungrouped account row_no_currency
    (start world_ungrouped exporter_ungrouped)
  = (Raise IndexError, start world_ungrouped exporter_ungrouped).
Proof.
  apply (proj1 (row_too_short_raises_IndexError world_ungrouped exporter_ungrouped account
                  row_no_currency (VInt 1) (VInt 1) (inject_Z 1) (inject_Z 1)
                  (start world_ungrouped exporter_ungrouped)
                  eq_refl eq_refl eq_refl eq_refl)
           eq_refl ltac:(vm_compute; lia)).
Defined.

Lemma tick_without_rows_leaves_the_gauges_empty_witness :
  samples (get_gauge Native
             (snd (tick world_down exporter_two_accounts
                     (written (start world_down exporter_two_accounts) labels_usd
                        (inject_Z 1) (inject_Z 1))))) = ∅.
Proof.
  apply (proj1 (tick_without_rows_leaves_the_gauges_empty world_down exporter_two_accounts
                  (written (start world_down exporter_two_accounts) labels_usd
                     (inject_Z 1) (inject_Z 1))
                  Native (fun _ _ _ _ => I))).
Defined.

Lemma negative_interval_ends_the_loop_after_one_tick_witness :
  run_metrics_loop world_ungrouped exporter_negative 3
    (start world_ungrouped exporter_negative)
  = tick world_ungrouped exporter_negative (start world_ungrouped exporter_negative).
Proof.
  apply (proj1 (proj2 (negative_interval_ends_the_loop_after_one_tick world_ungrouped
                         exporter_negative 2 (start world_ungrouped exporter_negative)
                         eq_refl))).
Defined.
